(** * generate_ics.py: merged iCalendar feed of upcoming fixtures

    A shallow embedding of [generate_ics.py] and the properties of its
    date/time normalisation, uid derivation, de-duplication and per-team /
    per-event error recovery.

    Layout: Part I holds the embedding (Python values and exceptions, the
    [datetime] arithmetic the script relies on, the external collaborators
    gathered in a [World] record, then the script's functions under their
    own names, then concrete worlds used by examples).  Part II holds the
    lemmas and the theorems. *)

From stdpp Require Import gmap strings list pretty sorting.
From Stdlib Require Import ZArith Lia Ascii.

Set Warnings "-register-all".
Set Default Proof Using "Type".

(* ===================================================================== *)
(** * Part I: the embedding                                              *)
(* ===================================================================== *)

(** ** Python values and exceptions *)

Module Py.

(** What [json.load] and [r.json()] deliver.  Floating-point numbers are
    outside this model. *)
Inductive json : Type :=
| JNull
| JBool (b : bool)
| JInt (n : Z)
| JStr (s : string)
| JList (xs : list json)
| JDict (kvs : gmap string json).

(** The exception classes the script can meet; all derive from
    [Exception], so every [except Exception] clause catches each of them. *)
Inductive exn : Type :=
| ValueError (msg : string)
| TypeError
| AttributeError
| KeyError (key : string)
| OverflowError
| ParserError
| UnknownTimeZoneError (zone : string)
| RequestException
| HTTPError (status : Z)
| JSONDecodeError.

Inductive result (A : Type) : Type :=
| Ok (a : A)
| Raise (e : exn).
Arguments Ok {A} a.
Arguments Raise {A} e.

#[export] Instance result_ret : MRet result := @Ok.
#[export] Instance result_bind : MBind result := λ A B k r,
  match r with
  | Ok a => k a
  | Raise e => Raise e
  end.

Definition is_ok {A} (r : result A) : bool :=
  match r with Ok _ => true | Raise _ => false end.

(** [bool(v)] *)
Definition truthy (v : json) : bool :=
  match v with
  | JNull => false
  | JBool b => b
  | JInt n => negb (n =? 0)%Z
  | JStr s => negb (String.eqb s "")
  | JList xs => match xs with [] => false | _ => true end
  | JDict kvs => negb (bool_decide (kvs = ∅))
  end.

(** [a or b] when [b] has already been evaluated. *)
Definition py_or (a b : json) : json := if truthy a then a else b.

(** [o.get(k)]: only a dict has the method. *)
Definition py_get (o : json) (k : string) : result json :=
  match o with
  | JDict kvs => Ok (default JNull (kvs !! k))
  | _ => Raise AttributeError
  end.

(** [o.get(k, d)] *)
Definition py_get_default (o : json) (k : string) (d : json) : result json :=
  match o with
  | JDict kvs => Ok (default d (kvs !! k))
  | _ => Raise AttributeError
  end.

(** [o[k]] with a string key. *)
Definition py_getitem (o : json) (k : string) : result json :=
  match o with
  | JDict kvs =>
      match kvs !! k with
      | Some v => Ok v
      | None => Raise (KeyError k)
      end
  | _ => Raise TypeError
  end.

(** [iter(o)]: the items a [for] loop visits.  A dict yields its keys and a
    string its characters (given here per byte); either way every item is a
    [str]. *)
Definition py_iter (o : json) : result (list json) :=
  match o with
  | JList xs => Ok xs
  | JDict kvs => Ok (JStr <$> (map_to_list kvs).*1)
  | JStr s => Ok ((λ c, JStr (String c "")) <$> String.list_ascii_of_string s)
  | _ => Raise TypeError
  end.

(** [a + b] *)
Definition py_add (a b : json) : result json :=
  match a, b with
  | JStr x, JStr y => Ok (JStr (x +:+ y))
  | JList x, JList y => Ok (JList (x ++ y))
  | (JInt _ | JBool _), (JInt _ | JBool _) =>
      let num v := match v with
                   | JInt n => n
                   | JBool true => 1%Z
                   | _ => 0%Z
                   end in
      Ok (JInt (num a + num b))
  | _, _ => Raise TypeError
  end.

(** Strings are UTF-8 byte strings. *)
Definition NL : string := String "010"%char "".

Fixpoint replace_char (old new : ascii) (s : string) : string :=
  match s with
  | EmptyString => EmptyString
  | String c r =>
      String (if Ascii.eqb c old then new else c) (replace_char old new r)
  end.

(** [v.replace(" ", "_")]: a [str] method. *)
Definition py_replace_space (v : json) : result string :=
  match v with
  | JStr s => Ok (replace_char " " "_" s)
  | _ => Raise AttributeError
  end.

(** Length in bytes of the white-space character at the head of a byte
    sequence, [0] when there is none.  White space is what [str.isspace]
    accepts: U+0009..U+000D, U+001C..U+0020, U+0085, U+00A0, U+1680,
    U+2000..U+200A, U+2028, U+2029, U+202F, U+205F and U+3000. *)
Definition ascii_space (c : N) : bool :=
  ((9 <=? c) && (c <=? 13) || (28 <=? c) && (c <=? 32))%N.

Definition space_len (l : list N) : nat :=
  match l with
  | 194 :: c :: _ => if ((c =? 133) || (c =? 160))%N then 2%nat else 0%nat
  | 225 :: 154 :: 128 :: _ => 3%nat
  | 226 :: 128 :: c :: _ =>
      if ((128 <=? c) && (c <=? 138) || (c =? 168) || (c =? 169)
          || (c =? 175))%N then 3%nat else 0%nat
  | 226 :: 129 :: 159 :: _ => 3%nat
  | 227 :: 128 :: 128 :: _ => 3%nat
  | c :: _ => if ascii_space c then 1%nat else 0%nat
  | [] => 0%nat
  end%N.

(** The same, read from the last byte backwards. *)
Definition space_len_rev (l : list N) : nat :=
  match l with
  | c :: 194 :: _ => if ((c =? 133) || (c =? 160))%N then 2%nat else
                     if ascii_space c then 1%nat else 0%nat
  | 128 :: 154 :: 225 :: _ => 3%nat
  | c :: 128 :: 226 :: _ =>
      if ((128 <=? c) && (c <=? 138) || (c =? 168) || (c =? 169)
          || (c =? 175))%N then 3%nat else 0%nat
  | 159 :: 129 :: 226 :: _ => 3%nat
  | 128 :: 128 :: 227 :: _ => 3%nat
  | c :: _ => if ascii_space c then 1%nat else 0%nat
  | [] => 0%nat
  end%N.

Fixpoint strip_front (len : list N → nat) (fuel : nat) (l : list N) : list N :=
  match fuel with
  | O => l
  | S fuel' =>
      match len l with
      | O => l
      | k => strip_front len fuel' (drop k l)
      end
  end.

(** [s.strip()] *)
Definition py_strip (s : string) : string :=
  let l := N_of_ascii <$> String.list_ascii_of_string s in
  let l1 := strip_front space_len (length l) l in
  let l2 := reverse (strip_front space_len_rev (length l1) (reverse l1)) in
  String.string_of_list_ascii (ascii_of_N <$> l2).

End Py.
Export Py.

(** ** The [datetime] arithmetic the script relies on

    Dates are proleptic Gregorian, years 1 to 9999, as in Python's
    [datetime] module, whose ordinal conversions are followed here. *)

Module Datetime.
Local Open Scope Z_scope.

Record naive : Type := Naive {
  year : Z; month : Z; day : Z;
  hour : Z; minute : Z; second : Z;
  microsecond : Z
}.

(** A [datetime] object: wall-clock fields and, when aware, its [tzinfo],
    given by its [utcoffset] method: the UTC offset in seconds as a function
    of the wall-clock fields.  [pytz.utc], the result of pytz's [localize],
    dateutil's [tzutc] and [tzoffset] have one fixed offset; dateutil's
    [tzlocal], which the parser attaches for an abbreviation of the system's
    local zone, changes its offset with daylight saving time. *)
Record datetime : Type := Datetime {
  wall : naive;
  tzinfo : option (naive → Z)
}.

Definition MAXORDINAL : Z := 3652059.
Definition DI400Y : Z := 146097.
Definition DI100Y : Z := 36524.
Definition DI4Y : Z := 1461.

Definition index (l : list Z) (i : Z) : Z := default 0 (l !! Z.to_nat i).

Definition DAYS_IN_MONTH : list Z :=
  [-1; 31; 28; 31; 30; 31; 30; 31; 31; 30; 31; 30; 31].
Definition DAYS_BEFORE_MONTH : list Z :=
  [-1; 0; 31; 59; 90; 120; 151; 181; 212; 243; 273; 304; 334].

Definition is_leap (y : Z) : bool :=
  (y mod 4 =? 0) && (negb (y mod 100 =? 0) || (y mod 400 =? 0)).

Definition days_before_year (y : Z) : Z :=
  let y := y - 1 in y * 365 + y / 4 - y / 100 + y / 400.

Definition days_in_month (y m : Z) : Z :=
  if (m =? 2) && is_leap y then 29 else index DAYS_IN_MONTH m.

Definition days_before_month (y m : Z) : Z :=
  index DAYS_BEFORE_MONTH m + (if (2 <? m) && is_leap y then 1 else 0).

Definition ymd2ord (y m d : Z) : Z :=
  days_before_year y + days_before_month y m + d.

Definition ord2ymd (n : Z) : Z * Z * Z :=
  let n := n - 1 in
  let n400 := n / DI400Y in
  let n := n mod DI400Y in
  let y := n400 * 400 + 1 in
  let n100 := n / DI100Y in
  let n := n mod DI100Y in
  let n4 := n / DI4Y in
  let n := n mod DI4Y in
  let n1 := n / 365 in
  let n := n mod 365 in
  let y := y + n100 * 100 + n4 * 4 + n1 in
  if (n1 =? 4) || (n100 =? 4) then (y - 1, 12, 31)
  else
    let leapyear := (n1 =? 3) && (negb (n4 =? 24) || (n100 =? 3)) in
    let m := Z.shiftr (n + 50) 5 in
    let preceding :=
      index DAYS_BEFORE_MONTH m + (if (2 <? m) && leapyear then 1 else 0) in
    if n <? preceding then
      let m := m - 1 in
      let preceding :=
        preceding
        - (index DAYS_IN_MONTH m + (if (m =? 2) && leapyear then 1 else 0)) in
      (y, m, n - preceding + 1)
    else (y, m, n - preceding + 1).

(** The tail of [ord2ymd] on its own: month and day of month from the day
    of the year, counted from 0. *)
Definition month_day (n : Z) (leapyear : bool) : Z * Z :=
  let m := Z.shiftr (n + 50) 5 in
  let preceding :=
    index DAYS_BEFORE_MONTH m + (if (2 <? m) && leapyear then 1 else 0) in
  if n <? preceding then
    let m := m - 1 in
    let preceding :=
      preceding
      - (index DAYS_IN_MONTH m + (if (m =? 2) && leapyear then 1 else 0)) in
    (m, n - preceding + 1)
  else (m, n - preceding + 1).

Definition month_day_ok (leap : bool) (n : Z) : bool :=
  let '(m, d) := month_day n leap in
  (index DAYS_BEFORE_MONTH m + (if (2 <? m) && leap then 1 else 0) + d =? n + 1)
  && (1 <=? m) && (m <=? 12) && (1 <=? d)
  && (d <=? index DAYS_IN_MONTH m + (if (m =? 2) && leap then 1 else 0)).

(** Seconds of wall-clock time counted from the start of ordinal day 0;
    microseconds ride along unchanged. *)
Definition to_seconds (n : naive) : Z :=
  ymd2ord (year n) (month n) (day n) * 86400
  + hour n * 3600 + minute n * 60 + second n.

Definition of_seconds (t us : Z) : naive :=
  let '(y, m, d) := ord2ymd (t / 86400) in
  let r := t mod 86400 in
  Naive y m d (r / 3600) (r mod 3600 / 60) (r mod 60) us.

Definition valid_naive (n : naive) : bool :=
  (1 <=? year n) && (year n <=? 9999)
  && (1 <=? month n) && (month n <=? 12)
  && (1 <=? day n) && (day n <=? days_in_month (year n) (month n))
  && (0 <=? hour n) && (hour n <? 24)
  && (0 <=? minute n) && (minute n <? 60)
  && (0 <=? second n) && (second n <? 60)
  && (0 <=? microsecond n) && (microsecond n <? 1000000).

(** The offsets [datetime] accepts from a [tzinfo]: strictly within 24
    hours. *)
Definition valid_offset (o : Z) : bool := (-86400 <? o) && (o <? 86400).

(** What the [tzinfo] of [dt] answers when asked for the offset of [dt];
    a naive value has none, here 0. *)
Definition utc_offset (dt : datetime) : Z :=
  match tzinfo dt with
  | Some tz => tz (wall dt)
  | None => 0
  end.

(** [n + timedelta(seconds=s)] on the wall clock: [OverflowError] when the
    day leaves [1 .. MAXORDINAL]. *)
Definition shift (n : naive) (s : Z) : result naive :=
  let t := to_seconds n + s in
  if (0 <? t / 86400) && (t / 86400 <=? MAXORDINAL)
  then Ok (of_seconds t (microsecond n))
  else Raise OverflowError.

(** [dt + timedelta(minutes=m)]: the wall clock moves and the [tzinfo]
    object is kept, so that its offset is next asked for at the new
    wall-clock time.  (A [timedelta] too large to build is an
    [OverflowError] as well.) *)
Definition add_minutes (dt : datetime) (m : Z) : result datetime :=
  w ← shift (wall dt) (60 * m);
  Ok (Datetime w (tzinfo dt)).

(** The [ValueError] with which [datetime] refuses an offset. *)
Definition offset_out_of_range : exn :=
  ValueError "offset must be a timedelta strictly between -timedelta(hours=24) and timedelta(hours=24)".

(** [dt.astimezone(pytz.utc)].  The offset of an aware [dt] is asked of
    its [tzinfo], and [datetime] refuses one that is not strictly within 24
    hours; a naive [dt] is taken as system local time, whose offset [local]
    supplies. *)
Definition astimezone_utc (local : naive → Z) (dt : datetime) : result datetime :=
  off ← match tzinfo dt with
        | Some tz =>
            if valid_offset (tz (wall dt)) then Ok (tz (wall dt))
            else Raise offset_out_of_range
        | None => Ok (local (wall dt))
        end;
  w ← shift (wall dt) (- off);
  Ok (Datetime w (Some (λ _, 0))).

(** The UTC instant an aware value denotes, in seconds. *)
Definition instant (dt : datetime) : Z := to_seconds (wall dt) - utc_offset dt.

(** Decimal digits, for [strftime]. *)
Definition digit (d : Z) : ascii := ascii_of_N (Z.to_N (48 + d)).

Definition pad2 (n : Z) : list ascii := [digit (n / 10 mod 10); digit (n mod 10)].

Definition pad4 (n : Z) : list ascii :=
  [digit (n / 1000 mod 10); digit (n / 100 mod 10);
   digit (n / 10 mod 10); digit (n mod 10)].

(** [%Y], which the C library writes as a plain decimal number: four
    digits from year 1000 on, fewer before. *)
Definition decimal_year (y : Z) : list ascii :=
  if y <? 10 then [digit y]
  else if y <? 100 then pad2 y
  else if y <? 1000 then [digit (y / 100 mod 10); digit (y / 10 mod 10); digit (y mod 10)]
  else pad4 y.

(** [strftime("%Y%m%dT%H%M%SZ")]. *)
Definition strftime (n : naive) : string :=
  String.string_of_list_ascii
    (decimal_year (year n) ++ pad2 (month n) ++ pad2 (day n) ++ ["T"%char]
     ++ pad2 (hour n) ++ pad2 (minute n) ++ pad2 (second n) ++ ["Z"%char]).

(** The wire form [YYYYMMDDTHHMMSSZ]: eight digits, [T], six digits, [Z]. *)
Definition is_digit (c : ascii) : bool :=
  let n := Z.of_N (N_of_ascii c) in (48 <=? n) && (n <=? 57).

Definition wire_form (s : string) : bool :=
  match String.list_ascii_of_string s with
  | [y1; y2; y3; y4; m1; m2; d1; d2; t; h1; h2; n1; n2; s1; s2; z] =>
      forallb is_digit [y1; y2; y3; y4; m1; m2; d1; d2; h1; h2; n1; n2; s1; s2]
      && Ascii.eqb t "T" && Ascii.eqb z "Z"
  | _ => false
  end.

(** Reading the wire form back, as a calendar consumer does. *)
Definition digit_val (c : ascii) : option Z :=
  let n := Z.of_N (N_of_ascii c) in
  if (48 <=? n) && (n <=? 57) then Some (n - 48) else None.

Fixpoint number (acc : Z) (cs : list ascii) : option Z :=
  match cs with
  | [] => Some acc
  | c :: cs' => d ← digit_val c; number (10 * acc + d) cs'
  end.

Definition read_basic (s : string) : option naive :=
  match String.list_ascii_of_string s with
  | [y1; y2; y3; y4; m1; m2; d1; d2; t; h1; h2; n1; n2; s1; s2; z] =>
      if Ascii.eqb t "T" && Ascii.eqb z "Z" then
        y ← number 0 [y1; y2; y3; y4];
        m ← number 0 [m1; m2];
        d ← number 0 [d1; d2];
        h ← number 0 [h1; h2];
        mi ← number 0 [n1; n2];
        se ← number 0 [s1; s2];
        Some (Naive y m d h mi se 0)
      else None
  | _ => None
  end.

(** The instant a wire-form text denotes (it is UTC by its [Z] suffix). *)
Definition read_instant (s : string) : option Z := to_seconds <$> read_basic s.

End Datetime.
Export Datetime.


(** ** External collaborators

    Everything the script obtains from outside its own text: the process
    environment, the remote API, the date parser, the time-zone database,
    the clock, and the Python built-ins whose full behaviour is not spelled
    out here. *)

Record response : Type := Response {
  status_code : Z;
  json_body : result json          (* the outcome of [r.json()] *)
}.

Record World : Type := {
  (** [os.environ] *)
  environ : gmap string string;
  (** [requests.get(url, timeout=20)]: a response, or the exception raised
      on a timeout or connection failure. *)
  requests_get : string → result response;
  (** [dateutil.parser.parse] on a string. *)
  parser_parse : string → result datetime;
  (** [pytz.timezone(name)], given by the outcome of its [localize] on a
      wall-clock value: the UTC offset (seconds) of the fixed-offset
      [tzinfo] it attaches, or the exception it raises (pytz looks a day
      back and a day ahead of the value, which overflows at the ends of
      the range of [datetime]). *)
  pytz_timezone : string → result (naive → result Z);
  (** The UTC offset of system local time. *)
  local_utcoffset : naive → Z;
  (** [datetime.utcnow()]: the reading returned by the call that follows
      [k] earlier calls. *)
  clock_reading : nat → naive;
  (** [str(v)] for a list or a dict. *)
  py_repr : json → string;
  (** [int(s)] for a string. *)
  int_of_str : string → result Z
}.

(** What is known of the collaborators: the zone named UTC is [pytz.utc],
    whose [localize] attaches offset 0 to any value. *)
Record World_ok (W : World) : Prop := {
  zone_utc : ∀ tz n, pytz_timezone W "UTC" = Ok tz → tz n = Ok 0%Z
}.

(** ** The state of a run and its monad

    [seen_uids] and [vevents] are the two accumulators of [main]; [clock]
    counts the calls to [datetime.utcnow()] made so far.  An exception
    leaves the state as it was when it was raised. *)

Record state : Type := State {
  seen_uids : gset string;
  vevents : list string;
  clock : nat
}.

Definition Run (A : Type) : Type := state → result A * state.

#[export] Instance run_ret : MRet Run := λ A a st, (Ok a, st).
#[export] Instance run_bind : MBind Run := λ A B k m st,
  match m st with
  | (Ok a, st') => k a st'
  | (Raise e, st') => (Raise e, st')
  end.

Definition lift {A} (r : result A) : Run A := λ st, (r, st).

(** [try: body  except Exception: handler] *)
Definition try_except {A} (body : Run A) (handler : exn → Run A) : Run A :=
  λ st, match body st with
        | (Ok a, st') => (Ok a, st')
        | (Raise e, st') => handler e st'
        end.

(** [for x in xs: body(x)] *)
Fixpoint for_each {A} (xs : list A) (body : A → Run unit) : Run unit :=
  match xs with
  | [] => mret tt
  | x :: xs' => _ ← body x; for_each xs' body
  end.

Definition utcnow (W : World) : Run naive :=
  λ st, (Ok (clock_reading W (clock st)),
         State (seen_uids st) (vevents st) (S (clock st))).

Definition seen (uid : string) : Run bool :=
  λ st, (Ok (bool_decide (uid ∈ seen_uids st)), st).

Definition seen_add (uid : string) : Run unit :=
  λ st, (Ok tt, State ({[uid]} ∪ seen_uids st) (vevents st) (clock st)).

Definition vevents_append (block : string) : Run unit :=
  λ st, (Ok tt, State (seen_uids st) (vevents st ++ [block]) (clock st)).

Definition get_vevents : Run (list string) := λ st, (Ok (vevents st), st).

(** ** The script *)

Section Script.
Context (W : World).

(** [str(v)], as an f-string applies it. *)
Definition py_str (v : json) : string :=
  match v with
  | JNull => "None"
  | JBool true => "True"
  | JBool false => "False"
  | JInt n => pretty n
  | JStr s => s
  | JList _ | JDict _ => py_repr W v
  end.

(** [int(v)] *)
Definition py_int (v : json) : result Z :=
  match v with
  | JInt n => Ok n
  | JBool b => Ok (if b then 1 else 0)%Z
  | JStr s => int_of_str W s
  | JNull | JList _ | JDict _ => Raise TypeError
  end.

(** [os.environ.get(name, fallback)] *)
Definition environ_get (name fallback : string) : string :=
  default fallback (environ W !! name).

Definition API_KEY : string := environ_get "THE_SPORTSDB_KEY" "1".
Definition API_BASE : string := "https://www.thesportsdb.com/api/v1/json/" +:+ API_KEY.
Definition OUT_DIR : string := "docs".
Definition PRODID : string := "-//My Sports Calendar//EN".
Definition UID_DOMAIN : string := environ_get "ICS_DOMAIN" "github.io".
Definition DEFAULT_TZ : string := environ_get "DEFAULT_TZ" "UTC".

Definition raise_for_status (r : response) : result unit :=
  if (400 <=? status_code r)%Z && (status_code r <? 600)%Z
  then Raise (HTTPError (status_code r))
  else Ok tt.

Definition fetch_events (team_id : json) : result json :=
  let url := API_BASE +:+ "/eventsnext.php?id=" +:+ py_str team_id in
  r ← requests_get W url;
  _ ← raise_for_status r;
  body ← json_body r;
  events ← py_get body "events";
  Ok (py_or events (JList [])).

Definition to_utc_rfc (dt : datetime) : result string :=
  u ← astimezone_utc (local_utcoffset W) dt;
  Ok (strftime (wall u)).

Definition uid_for (event : json) : result string :=
  l ← py_get event "strLeague";
  league ← py_replace_space (py_or l (JStr "league"));
  a ← py_get event "idEvent";
  eid ← (if truthy a then Ok a else py_get event "id");
  Ok (league +:+ "-" +:+ py_str eid +:+ "@" +:+ UID_DOMAIN).

(** [parser.parse(raw)]: anything but a string is a [TypeError]. *)
Definition parse (raw : json) : result datetime :=
  match raw with
  | JStr s => parser_parse W s
  | _ => Raise TypeError
  end.

Definition make_dt (event : json) : result datetime :=
  date_str ← py_get event "dateEvent";
  time_str ← py_get event "strTime";
  if negb (truthy date_str) then Raise (ValueError "Event missing dateEvent")
  else
    let raw := if truthy time_str
               then JStr (py_str date_str +:+ " " +:+ py_str time_str)
               else date_str in
    dt ← parse raw;
    match tzinfo dt with
    | None =>
        tz ← pytz_timezone W DEFAULT_TZ;
        o ← tz (wall dt);
        Ok (Datetime (wall dt) (Some (λ _, o)))
    | Some _ => Ok dt
    end.

(** The nine lines of a VEVENT block. *)
Definition vevent_lines
    (uid dtstamp dtstart dtend summary location description : string)
    : list string :=
  [ "BEGIN:VEVENT";
    "UID:" +:+ uid;
    "DTSTAMP:" +:+ dtstamp;
    "DTSTART:" +:+ dtstart;
    "DTEND:" +:+ dtend;
    "SUMMARY:" +:+ summary;
    "LOCATION:" +:+ location;
    "DESCRIPTION:" +:+ description;
    "END:VEVENT" ].

(** The title shown in SUMMARY: [strEvent], or else home [" vs "] away. *)
Definition event_title (event : json) : result json :=
  title ← py_get event "strEvent";
  if truthy title then Ok title
  else
    home ← py_get event "strHomeTeam";
    left ← py_add home (JStr " vs ");
    away ← py_get event "strAwayTeam";
    py_add left away.

Definition build_vevent (event team : json) : Run string :=
  dt ← lift (make_dt event);
  minutes ← lift (py_get_default team "duration_minutes" (JInt 120));
  duration ← lift (py_int minutes);
  dtstart ← lift (to_utc_rfc dt);
  dt_end ← lift (add_minutes dt duration);
  dtend ← lift (to_utc_rfc dt_end);
  now ← utcnow W;
  let dtstamp := strftime now in
  uid ← lift (uid_for event);
  emoji ← lift (py_get_default team "sport_emoji" (JStr ""));
  title ← lift (event_title event);
  let summary := py_strip (py_str emoji +:+ " " +:+ py_str title) in
  venue ← lift (py_get event "strVenue");
  venue_location ← lift (py_get event "strVenueLocation");
  let location := py_or venue (py_or venue_location (JStr "")) in
  league ← lift (py_get event "strLeague");
  let description := py_or league (JStr "") in
  mret (String.concat NL
          (vevent_lines uid dtstamp dtstart dtend summary
             (py_str location) (py_str description))).

Definition generate_calendar (all_vevents : list string) : string :=
  let header := [ "BEGIN:VCALENDAR"; "VERSION:2.0"; "PRODID:" +:+ PRODID;
                  "CALSCALE:GREGORIAN" ] in
  let footer := [ "END:VCALENDAR" ] in
  String.concat NL (header ++ all_vevents ++ footer).

(** The body of the inner [try] in [main], for one event of one team. *)
Definition event_body (team ev : json) : Run unit :=
  uid ← lift (uid_for ev);
  dup ← seen uid;
  if dup : bool then mret tt
  else
    _ ← seen_add uid;
    block ← build_vevent ev team;
    vevents_append block.

(** One turn of the inner loop: any exception skips the event (the line
    printed to standard output is left out, here and below). *)
Definition event_iter (team ev : json) : Run unit :=
  try_except (event_body team ev) (λ _, mret tt).

(** One turn of the outer loop.  The subscript [team["team_id"]] and the
    progress line stand outside any [try]; so does the start of the
    iteration over [events]. *)
Definition team_iter (team : json) : Run unit :=
  team_id ← lift (py_getitem team "team_id");
  _ ← lift (py_get team "name");
  match fetch_events team_id with
  | Raise _ => mret tt
  | Ok events =>
      if negb (truthy events) then mret tt
      else
        evs ← lift (py_iter events);
        for_each evs (event_iter team)
  end.

Definition initial : state := State ∅ [] 0.

(** [main], from the parsed content of [teams.json] to the text written to
    [docs/all.ics]; creating the directory and opening the two files are
    taken to succeed. *)
Definition main (teams : json) : Run string :=
  ts ← lift (py_iter teams);
  _ ← for_each ts team_iter;
  all_vevents ← get_vevents;
  mret (generate_calendar all_vevents).

End Script.


(** ** Derived forms of the script, used by the proofs *)

Section Derived.
Context (W : World).

(** [build_vevent] up to the clock reading, and from it on. *)
Definition vevent_times (event team : json)
    : result (datetime * Z * string * string) :=
  dt ← make_dt W event;
  minutes ← py_get_default team "duration_minutes" (JInt 120);
  duration ← py_int W minutes;
  dtstart ← to_utc_rfc W dt;
  dt_end ← add_minutes dt duration;
  dtend ← to_utc_rfc W dt_end;
  Ok (dt, duration, dtstart, dtend).

Definition vevent_text (event team : json) (dtstamp dtstart dtend : string)
    : result string :=
  uid ← uid_for W event;
  emoji ← py_get_default team "sport_emoji" (JStr "");
  title ← event_title event;
  let summary := py_strip (py_str W emoji +:+ " " +:+ py_str W title) in
  venue ← py_get event "strVenue";
  venue_location ← py_get event "strVenueLocation";
  let location := py_or venue (py_or venue_location (JStr "")) in
  league ← py_get event "strLeague";
  let description := py_or league (JStr "") in
  Ok (String.concat NL
        (vevent_lines uid dtstamp dtstart dtend summary
           (py_str W location) (py_str W description))).

Definition tick (st : state) : state :=
  State (seen_uids st) (vevents st) (S (clock st)).

Definition mark (u : string) (st : state) : state :=
  State ({[u]} ∪ seen_uids st) (vevents st) (clock st).

Definition append (b : string) (st : state) : state :=
  State (seen_uids st) (vevents st ++ [b]) (clock st).

(** What one turn of the inner loop does to the state. *)
Definition event_step (team : json) (st : state) (ev : json) : state :=
  match uid_for W ev with
  | Raise _ => st
  | Ok u =>
      if bool_decide (u ∈ seen_uids st) then st
      else
        match vevent_times ev team with
        | Raise _ => mark u st
        | Ok (_, _, dtstart, dtend) =>
            match vevent_text ev team
                    (strftime (clock_reading W (clock st))) dtstart dtend with
            | Ok b => append b (tick (mark u st))
            | Raise _ => tick (mark u st)
            end
        end
  end.

(** The events the inner loop visits for a team. *)
Definition fetched (team : json) : list json :=
  match py_getitem team "team_id" with
  | Ok team_id =>
      match fetch_events W team_id with
      | Ok events =>
          if truthy events then
            match py_iter events with Ok evs => evs | Raise _ => [] end
          else []
      | Raise _ => []
      end
  | Raise _ => []
  end.

(** Fetch order: teams in configured order, each team's events in the
    order the API returned them; every event paired with its team. *)
Definition fetch_order (teams : list json) : list (json * json) :=
  teams ≫= λ team, (λ ev, (team, ev)) <$> fetched team.

Definition occurrence_step (st : state) (te : json * json) : state :=
  event_step te.1 st te.2.

End Derived.

(** ** Vocabulary of the specification *)

Section Vocabulary.
Context (W : World).

(** [event.get(k)] on the fields of an event, and whether it holds a usable
    value: a field that is missing, null or empty counts as absent, as it
    does for Python's [or]. *)
Definition field (kvs : gmap string json) (k : string) : json :=
  default JNull (kvs !! k).

Definition present (kvs : gmap string json) (k : string) : Prop :=
  truthy (field kvs k) = true.

Definition absent (kvs : gmap string json) (k : string) : Prop :=
  truthy (field kvs k) = false.

(** The league part of a uid. *)
Inductive league_part (kvs : gmap string json) : string → Prop :=
| league_named s :
    present kvs "strLeague" → field kvs "strLeague" = JStr s →
    league_part kvs (replace_char " " "_" s)
| league_default :
    absent kvs "strLeague" → league_part kvs "league".

(** The identifier of an event: the first present of [idEvent] and [id]. *)
Inductive event_id (kvs : gmap string json) : json → Prop :=
| event_id_first :
    present kvs "idEvent" → event_id kvs (field kvs "idEvent")
| event_id_second :
    absent kvs "idEvent" → present kvs "id" → event_id kvs (field kvs "id").

(** What the normalizer hands to the date parser, and the parser's answer:
    the date joined to the time when there is a time, else the date. *)
Inductive parsed_as (kvs : gmap string json) : datetime → Prop :=
| parsed_date_time dt :
    present kvs "dateEvent" → present kvs "strTime" →
    parser_parse W (py_str W (field kvs "dateEvent") +:+ " "
                    +:+ py_str W (field kvs "strTime")) = Ok dt →
    parsed_as kvs dt
| parsed_date d dt :
    present kvs "dateEvent" → absent kvs "strTime" →
    field kvs "dateEvent" = JStr d → parser_parse W d = Ok dt →
    parsed_as kvs dt.

(** The UTC offset the normalizer reads a parsed value with: its own when
    it carries one, else the one the fallback zone attaches to that
    wall-clock time. *)
Inductive normalized : datetime → Z → Prop :=
| normalized_aware n tz :
    normalized (Datetime n (Some tz)) (tz n)
| normalized_naive n tz o :
    pytz_timezone W (DEFAULT_TZ W) = Ok tz → tz n = Ok o →
    normalized (Datetime n None) o.

(** The duration a team is configured with. *)
Inductive configured_duration (team : gmap string json) : Z → Prop :=
| duration_default :
    team !! "duration_minutes" = None → configured_duration team 120
| duration_override v d :
    team !! "duration_minutes" = Some v → py_int W v = Ok d →
    configured_duration team d.

(** A VEVENT block with given UID, DTSTAMP, DTSTART and DTEND values. *)
Definition block_with (uid dtstamp dtstart dtend : string) (block : string) : Prop :=
  ∃ summary location description,
    block = String.concat NL
              (vevent_lines uid dtstamp dtstart dtend summary location description).

Definition stamped (dtstamp block : string) : Prop :=
  ∃ uid dtstart dtend, block_with uid dtstamp dtstart dtend block.

(** Instants that [datetime] can hold, and those of the years 1000 to
    9999, whose year takes four digits. *)
Definition representable (t : Z) : Prop :=
  (86400 <= t < 86400 * (MAXORDINAL + 1))%Z.

Definition four_digit_year (t : Z) : Prop :=
  (86400 * 364878 <= t < 86400 * (MAXORDINAL + 1))%Z.

(** A value that [astimezone] can take to UTC. *)
Definition utc_convertible (dt : datetime) : Prop :=
  valid_offset (utc_offset dt) = true ∧ representable (instant dt).

(** The value [dt + timedelta(minutes=d)] when it is in range, and whether
    the offset of [dt] is the same there. *)
Definition end_of (dt : datetime) (d : Z) : datetime :=
  Datetime (of_seconds (to_seconds (wall dt) + 60 * d) (microsecond (wall dt)))
           (tzinfo dt).

Definition steady_offset (dt : datetime) (d : Z) : Prop :=
  utc_offset (end_of dt d) = utc_offset dt.

(** The title of an event can be built. *)
Definition titled (kvs : gmap string json) : Prop :=
  present kvs "strEvent"
  ∨ ∃ home away, field kvs "strHomeTeam" = JStr home
                 ∧ field kvs "strAwayTeam" = JStr away.

(** De-duplication, stated over the occurrences of a run in fetch order. *)
Definition has_uid (u : string) (te : json * json) : bool :=
  match uid_for W te.2 with
  | Ok v => bool_decide (v = u)
  | Raise _ => false
  end.

Definition uid_known (occ : list (json * json)) (u : string) : Prop :=
  ∃ te, te ∈ occ ∧ has_uid u te = true.

Definition renders (team ev : json) : bool :=
  is_ok (build_vevent W ev team initial).1.

(** Occurrence [i] derives a uid that no earlier occurrence derives. *)
Definition first_occurrence (occ : list (json * json)) (i : nat) : bool :=
  match occ !! i with
  | Some (_, ev) =>
      match uid_for W ev with
      | Ok u => forallb (λ te, negb (has_uid u te)) (take i occ)
      | Raise _ => false
      end
  | None => false
  end.

Definition kept (occ : list (json * json)) (i : nat) : bool :=
  first_occurrence occ i
  && match occ !! i with
     | Some (team, ev) => renders team ev
     | None => false
     end.

Definition kept_indices (occ : list (json * json)) : list nat :=
  List.filter (kept occ) (seq 0 (length occ)).

(** [block] is the rendering of occurrence [ik.1], made by the call of
    [build_vevent] that took clock reading number [ik.2]. *)
Definition rendering (occ : list (json * json)) (ik : nat * nat)
    (block : string) : Prop :=
  ∃ team ev, occ !! ik.1 = Some (team, ev)
    ∧ (build_vevent W ev team (State ∅ [] ik.2)).1 = Ok block.

Record trace_inv (occ : list (json * json)) (st : state)
    (tr : list (nat * nat)) : Prop := {
  tr_seen : ∀ u, u ∈ seen_uids st ↔ uid_known occ u;
  tr_indices : tr.*1 = kept_indices occ;
  tr_sorted : StronglySorted lt tr.*2;
  tr_clock : Forall (λ k, k < clock st) tr.*2;
  tr_blocks : Forall2 (rendering occ) tr (vevents st)
}.

(** Reading a value back from the text of a block, as a calendar consumer
    does: the text after [key] on the first line that starts with it. *)
Fixpoint lines (s : string) : list string :=
  match s with
  | EmptyString => [EmptyString]
  | String c r =>
      if Ascii.eqb c "010" then EmptyString :: lines r
      else match lines r with
           | l :: ls => String c l :: ls
           | [] => [String c EmptyString]
           end
  end.

Fixpoint after (key s : string) : option string :=
  match key with
  | EmptyString => Some s
  | String a key' =>
      match s with
      | String b s' => if Ascii.eqb a b then after key' s' else None
      | EmptyString => None
      end
  end.

Definition line_value (key block : string) : option string :=
  head (omap (after key) (lines block)).

Definition dtstamp_of (block : string) : option string :=
  line_value "DTSTAMP:" block.

(** Sentences of the specification, as they are worded. *)

(** "Exactly the first occurrence of a uid contributes a VEVENT": the
    blocks of a run are the renderings of the first occurrences. *)
Definition first_occurrences_contribute (teams : list json) : Prop :=
  ∀ doc st,
    main W (JList teams) initial = (Ok doc, st) →
    ∃ tr,
      tr.*1 = List.filter (first_occurrence (fetch_order W teams))
                (seq 0 (length (fetch_order W teams)))
      ∧ Forall2 (rendering (fetch_order W teams)) tr (vevents st).


(** "Every VEVENT block of a run carries the same DTSTAMP." *)
Definition single_dtstamp (teams : list json) : Prop :=
  ∀ doc st,
    main W (JList teams) initial = (Ok doc, st) →
    ∃ stamp, Forall (λ block, dtstamp_of block = Some stamp) (vevents st).

(** "The formatter never raises for an event that passed the normalizer
    and the identity filter." *)
Definition formatter_never_raises (team ev : json) : Prop :=
  ∀ u st,
    is_ok (make_dt W ev) = true → uid_for W ev = Ok u → u ∉ seen_uids st →
    is_ok (build_vevent W ev team st).1 = true.

(** "The rendered DTSTART is in the exact textual form YYYYMMDDTHHMMSSZ." *)
Definition dtstart_in_wire_form (team ev : json) : Prop :=
  ∀ st block st',
    build_vevent W ev team st = (Ok block, st') →
    ∃ s, line_value "DTSTART:" block = Some s ∧ wire_form s = true.


(** "Only the event without a date is skipped: each sibling event of the
    same team is still processed": the siblings before and after it leave
    the blocks they leave without it. *)
Definition siblings_unaffected (team : json) (kvs : gmap string json) : Prop :=
  absent kvs "dateEvent" →
  ∀ before after st,
    vevents (for_each (before ++ JDict kvs :: after) (event_iter W team) st).2
    = vevents (for_each (before ++ after) (event_iter W team) st).2.

End Vocabulary.

(** ** Concrete worlds and inputs for the examples *)

Module Fixtures.

Definition obj (fields : list (string * json)) : json := JDict (list_to_map fields).

(** What the date parser answers on the texts used below. *)
Definition parse_table (s : string) : result datetime :=
  if String.eqb s "2026-03-12 02:00:00" then
    Ok (Datetime (Naive 2026 3 12 2 0 0 0) None)
  else if String.eqb s "2026-03-14" then
    Ok (Datetime (Naive 2026 3 14 0 0 0 0) None)
  else if String.eqb s "2026-03-12 19:30:00+01:00" then
    Ok (Datetime (Naive 2026 3 12 19 30 0 0) (Some (λ _, 3600%Z)))
  else Raise ParserError.

Definition zone_table (name : string) : result (naive → result Z) :=
  if String.eqb name "UTC" then Ok (λ _, Ok 0%Z)
  else if String.eqb name "Asia/Tokyo" then Ok (λ _, Ok 32400%Z)
  else Raise (UnknownTimeZoneError name).

Definition int_table (s : string) : result Z :=
  if String.eqb s "90" then Ok 90%Z
  else Raise (ValueError "invalid literal for int() with base 10").

Definition url (team_id : string) : string :=
  "https://www.thesportsdb.com/api/v1/json/1/eventsnext.php?id=" +:+ team_id.

Definition api_table (api : list (string * result response)) (u : string)
    : result response :=
  default (Raise RequestException) (list_to_map (M := gmap string _) api !! u).

(** A clock that advances by one second between readings, and one that
    stands still. *)
Definition ticking (k : nat) : naive := Naive 2026 11 4 12 0 (Z.of_nat k mod 60) 0.
Definition frozen (k : nat) : naive := Naive 2026 11 4 12 0 0 0.

Definition world (env : list (string * string))
    (api : list (string * result response)) (clk : nat → naive) : World :=
  {| environ := list_to_map env;
     requests_get := api_table api;
     parser_parse := parse_table;
     pytz_timezone := zone_table;
     local_utcoffset := λ _, 0%Z;
     clock_reading := clk;
     py_repr := λ _, "[...]";
     int_of_str := int_table |}.

Definition events_ok (evs : list json) : result response :=
  Ok (Response 200 (Ok (obj [("events", JList evs)]))).

Definition arsenal : json :=
  obj [("team_id", JStr "133604"); ("name", JStr "Arsenal");
       ("sport_emoji", JStr "⚽")].
Definition chelsea : json :=
  obj [("team_id", JStr "133610"); ("name", JStr "Chelsea");
       ("duration_minutes", JInt 90)].
Definition spurs : json :=
  obj [("team_id", JStr "133616"); ("name", JStr "Tottenham")].

Definition derby : json :=
  obj [("idEvent", JStr "2001"); ("strLeague", JStr "English Premier League");
       ("strEvent", JStr "Arsenal vs Chelsea"); ("dateEvent", JStr "2026-03-12");
       ("strTime", JStr "02:00:00"); ("strVenue", JStr "Emirates Stadium")].

(** The same fixture as [derby], reported without a date. *)
Definition derby_undated : json :=
  obj [("idEvent", JStr "2001"); ("strLeague", JStr "English Premier League");
       ("strEvent", JStr "Arsenal vs Chelsea")].

Definition undated : json :=
  obj [("idEvent", JStr "2002"); ("strLeague", JStr "English Premier League");
       ("strEvent", JStr "Arsenal vs Everton")].

Definition cup_tie : json :=
  obj [("idEvent", JStr "2003"); ("strLeague", JStr "FA Cup");
       ("strHomeTeam", JStr "Lions"); ("strAwayTeam", JStr "Tigers");
       ("dateEvent", JStr "2026-03-14")].

Definition away_game : json :=
  obj [("id", JStr "2004"); ("strEvent", JStr "Milan vs Arsenal");
       ("dateEvent", JStr "2026-03-12"); ("strTime", JStr "19:30:00+01:00");
       ("strVenueLocation", JStr "Milan")].

Definition anonymous : json :=
  obj [("strEvent", JStr "Friendly"); ("dateEvent", JStr "2026-03-14")].

Definition untitled : json :=
  obj [("idEvent", JStr "2005"); ("strLeague", JStr "FA Cup");
       ("dateEvent", JStr "2026-03-14")].

Definition fields_of (o : json) : gmap string json :=
  match o with JDict kvs => kvs | _ => ∅ end.

(** A league week: Tottenham's request times out; Arsenal gets the derby,
    a fixture without a date and a cup tie; Chelsea gets the derby again
    and an away game. *)
Definition league_week : World :=
  world []
    [ (url "133604", events_ok [derby; undated; cup_tie]);
      (url "133610", events_ok [derby; away_game]) ]
    ticking.

(** The same week with the server answering 503 to Tottenham's request. *)
Definition league_week_503 : World :=
  world []
    [ (url "133616", Ok (Response 503 (Raise JSONDecodeError)));
      (url "133604", events_ok [derby; undated; cup_tie]);
      (url "133610", events_ok [derby; away_game]) ]
    ticking.

(** The derby is listed twice for Arsenal, the first time without a date. *)
Definition replay : World :=
  world [] [ (url "133604", events_ok [derby_undated; derby]) ] ticking.

(** A fixture without identifier and one without title. *)
Definition friendlies : World :=
  world [] [ (url "133604", events_ok [anonymous; untitled]) ] ticking.

(** A run so quick that the clock does not move. *)
Definition quick_week : World :=
  world []
    [ (url "133604", events_ok [derby; undated; cup_tie]) ]
    frozen.

End Fixtures.


(** ** Further vocabulary *)

(** [c in s] *)
Fixpoint has_char (c : ascii) (s : string) : bool :=
  match s with
  | EmptyString => false
  | String a r => Ascii.eqb a c || has_char c r
  end.

(** A text that stays on one line. *)
Definition one_line (s : string) : bool := negb (has_char "010" s).

(** The header and the footer of the calendar document. *)
Definition calendar_header : list string :=
  [ "BEGIN:VCALENDAR"; "VERSION:2.0"; "PRODID:-//My Sports Calendar//EN";
    "CALSCALE:GREGORIAN" ].

Definition calendar_footer : list string := [ "END:VCALENDAR" ].

(** A team entry whose request for events fails. *)
Definition fetch_fails (W : World) (team : json) : Prop :=
  ∃ kvs team_id e,
    team = JDict kvs ∧ kvs !! "team_id" = Some team_id
    ∧ fetch_events W team_id = Raise e.

(** A status that [raise_for_status] lets pass. *)
Definition status_passes (r : response) : Prop :=
  ¬ (400 <= status_code r < 600)%Z.

(** ** Further worlds and inputs for the examples *)

Module MoreFixtures.
Import Fixtures.

(** What the API answers Arsenal in [league_week]. *)
Definition arsenal_response : response :=
  Response 200 (Ok (obj [("events", JList [derby; undated; cup_tie])])).

(** Out of season the API answers with a null list of events. *)
Definition off_season_response : response :=
  Response 200 (Ok (obj [("events", JNull)])).

Definition off_season : World :=
  world [] [ (url "133604", Ok off_season_response) ] ticking.

(** No request gets through. *)
Definition outage : World := world [] [] ticking.

(** The fallback zone is set to a name the zone database does not know. *)
Definition lost_zone : World :=
  world [("DEFAULT_TZ", "Mars/Olympus")]
    [ (url "133604", events_ok [derby; away_game]) ] ticking.

(** A team entry without identifier, and one whose duration is null. *)
Definition nameless : json := obj [("name", JStr "Everton")].

Definition careless : json :=
  obj [("team_id", JStr "133604"); ("duration_minutes", JNull)].

(** Two different friendlies, neither with an identifier. *)
Definition friendly_home : json :=
  obj [("strEvent", JStr "Arsenal vs Ajax"); ("dateEvent", JStr "2026-03-14")].

Definition friendly_away : json :=
  obj [("strEvent", JStr "Porto vs Chelsea");
       ("dateEvent", JStr "2026-03-12"); ("strTime", JStr "02:00:00")].

(** 19:30 at +01:00 and 18:30 at UTC; midnight of the first day at +01:00. *)
Definition half_past_seven_cet : datetime :=
  Datetime (Naive 2026 3 12 19 30 0 0) (Some (λ _, 3600%Z)).

Definition half_past_six_utc : datetime :=
  Datetime (Naive 2026 3 12 18 30 0 0) (Some (λ _, 0%Z)).

Definition first_midnight_cet : datetime :=
  Datetime (Naive 1 1 1 0 0 0 0) (Some (λ _, 3600%Z)).

End MoreFixtures.

(** ** Inputs at the edges of what [datetime] and the parser deliver *)

Module EdgeFixtures.
Import Fixtures.

(** The offset of a machine on New York time around the change to daylight
    saving time of 8 March 2026, as dateutil's [tzlocal] reports it: five
    hours behind UTC before 02:00 on the wall clock, four hours from then
    on. *)
Definition new_york (n : naive) : Z :=
  if (to_seconds n <? to_seconds (Naive 2026 3 8 2 0 0 0))%Z
  then (-18000)%Z else (-14400)%Z.

(** What the date parser answers: a date of the year 999; a time with the
    abbreviation of the local zone, which gets [tzlocal]; an offset of 25
    hours, which gets [tzoffset(None, 90000)]. *)
Definition edge_parse_table (s : string) : result datetime :=
  if String.eqb s "0999-01-01" then
    Ok (Datetime (Naive 999 1 1 0 0 0 0) None)
  else if String.eqb s "2026-03-08 01:30:00 EST" then
    Ok (Datetime (Naive 2026 3 8 1 30 0 0) (Some new_york))
  else if String.eqb s "2026-03-12 19:30:00+25:00" then
    Ok (Datetime (Naive 2026 3 12 19 30 0 0) (Some (λ _, 90000%Z)))
  else parse_table s.

Definition edge_world (env : list (string * string))
    (api : list (string * result response)) : World :=
  {| environ := list_to_map env;
     requests_get := api_table api;
     parser_parse := edge_parse_table;
     pytz_timezone := zone_table;
     local_utcoffset := new_york;
     clock_reading := ticking;
     py_repr := λ _, "[...]";
     int_of_str := int_table |}.

Definition jubilee : json :=
  obj [("idEvent", JStr "999001"); ("strEvent", JStr "Millennium Cup");
       ("dateEvent", JStr "0999-01-01")].

Definition night_game : json :=
  obj [("idEvent", JStr "2084001"); ("strEvent", JStr "Red Bulls vs Arsenal");
       ("strLeague", JStr "Club Friendlies");
       ("dateEvent", JStr "2026-03-08"); ("strTime", JStr "01:30:00 EST")].

Definition far_offset : json :=
  obj [("idEvent", JStr "2084002"); ("strEvent", JStr "Arsenal vs Ajax");
       ("dateEvent", JStr "2026-03-12"); ("strTime", JStr "19:30:00+25:00")].

Definition tour : World :=
  edge_world [] [ (url "133604", events_ok [jubilee; night_game; far_offset]) ].

(** The same week with Tokyo as the fallback zone. *)
Definition tokyo_week : World :=
  world [("DEFAULT_TZ", "Asia/Tokyo")]
    [ (url "133604", events_ok [derby; away_game]) ] ticking.

End EdgeFixtures.


(* ===================================================================== *)
(** * Part II: lemmas and theorems                                       *)
(* ===================================================================== *)

(** ** Calendar arithmetic *)

Module DatetimeFacts.
Local Open Scope Z_scope.

(** Quotients and remainders by literals are handed to [lia] as their
    Euclidean equations. *)
Ltac Zify.zify_post_hook ::= Z.to_euclidean_division_equations.

Ltac case_results :=
  repeat match goal with
         | |- context [match ?r with Ok _ => _ | Raise _ => _ end] =>
             destruct r; try reflexivity
         end.

Lemma month_day_checked leap n :
  0 <= n < 365 → month_day_ok leap n = true.
Proof.
  intros Hn.
  assert (H : forallb (λ k, month_day_ok true k && month_day_ok false k)
                (seqZ 0 365) = true) by (vm_compute; reflexivity).
  rewrite forallb_forall in H.
  assert (Hin : In n (seqZ 0 365)) by (apply list_elem_of_In, elem_of_seqZ; lia).
  apply H, andb_prop in Hin. destruct leap; tauto.
Qed.

Lemma ord2ymd_month_day n :
  ord2ymd n =
    let n0 := n - 1 in
    let n400 := n0 / DI400Y in
    let r1 := n0 mod DI400Y in
    let n100 := r1 / DI100Y in
    let r2 := r1 mod DI100Y in
    let n4 := r2 / DI4Y in
    let r3 := r2 mod DI4Y in
    let n1 := r3 / 365 in
    let r4 := r3 mod 365 in
    let y := n400 * 400 + 1 + n100 * 100 + n4 * 4 + n1 in
    if (n1 =? 4) || (n100 =? 4) then (y - 1, 12, 31)
    else
      let md := month_day r4 ((n1 =? 3) && (negb (n4 =? 24) || (n100 =? 3))) in
      (y, md.1, md.2).
Proof.
  unfold ord2ymd, month_day. cbv zeta.
  repeat match goal with
         | |- context [if ?b then _ else _] => destruct b
         end; reflexivity.
Qed.

(** Within a 400-year cycle, split into centuries, 4-year cycles and
    years, the leap rule and the day count take a closed form. *)
Lemma is_leap_cycle a n100 n4 n1 :
  0 <= n100 <= 3 → 0 <= n4 <= 24 → 0 <= n1 <= 3 →
  is_leap (a * 400 + 1 + n100 * 100 + n4 * 4 + n1)
  = (n1 =? 3) && (negb (n4 =? 24) || (n100 =? 3)).
Proof.
  intros. unfold is_leap.
  repeat match goal with
         | |- context [?x =? ?y] => destruct (Z.eqb_spec x y)
         end; simpl; try reflexivity; exfalso; lia.
Qed.

Lemma days_before_year_cycle a n100 n4 n1 :
  0 <= n100 <= 3 → 0 <= n4 <= 24 → 0 <= n1 <= 3 →
  days_before_year (a * 400 + 1 + n100 * 100 + n4 * 4 + n1)
  = a * DI400Y + n100 * DI100Y + n4 * DI4Y + n1 * 365.
Proof. intros. unfold days_before_year, DI400Y, DI100Y, DI4Y. lia. Qed.

(** [ord2ymd] inverts [ymd2ord] and lands on a proper date. *)
Lemma ord2ymd_spec n :
  1 <= n →
  ∃ y m d, ord2ymd n = (y, m, d) ∧ ymd2ord y m d = n
    ∧ 1 <= m <= 12 ∧ 1 <= d <= days_in_month y m
    ∧ (n <= MAXORDINAL → 1 <= y <= 9999).
Proof.
  intros Hn. rewrite ord2ymd_month_day. cbv zeta.
  set (n0 := n - 1).
  set (n400 := n0 / DI400Y). set (r1 := n0 mod DI400Y).
  set (n100 := r1 / DI100Y). set (r2 := r1 mod DI100Y).
  set (n4 := r2 / DI4Y). set (r3 := r2 mod DI4Y).
  set (n1 := r3 / 365). set (r4 := r3 mod 365).
  assert (E1 : n0 = n400 * 146097 + r1 ∧ 0 <= r1 < 146097)
    by (subst n400 r1; unfold DI400Y; lia).
  assert (E2 : r1 = n100 * 36524 + r2 ∧ 0 <= r2 < 36524)
    by (subst n100 r2; unfold DI100Y; lia).
  assert (E3 : r2 = n4 * 1461 + r3 ∧ 0 <= r3 < 1461)
    by (subst n4 r3; unfold DI4Y; lia).
  assert (E4 : r3 = n1 * 365 + r4 ∧ 0 <= r4 < 365) by (subst n1 r4; lia).
  assert (Hn0 : n = n0 + 1 ∧ 0 <= n0) by (subst n0; lia).
  clearbody n0 n400 r1 n100 r2 n4 r3 n1 r4.
  assert (B400 : 0 <= n400) by lia.
  assert (B100 : 0 <= n100 <= 4) by lia.
  assert (B4 : 0 <= n4 <= 24) by lia.
  assert (B1 : 0 <= n1 <= 4) by lia.
  destruct ((n1 =? 4) || (n100 =? 4)) eqn:Hsp.
  - (* 31 December of a leap year *)
    exists (n400 * 400 + 1 + n100 * 100 + n4 * 4 + n1 - 1), 12, 31.
    split; [reflexivity|].
    apply orb_true_iff in Hsp.
    assert (Hy : ∃ c4, 0 <= c4 <= 24 ∧ ∃ c100, 0 <= c100 <= 3 ∧
              (c4 = 24 → c100 = 3) ∧
              n400 * 400 + 1 + n100 * 100 + n4 * 4 + n1 - 1
              = n400 * 400 + 1 + c100 * 100 + c4 * 4 + 3
              ∧ n = n400 * 146097 + c100 * 36524 + c4 * 1461 + 3 * 365 + 366).
    { destruct Hsp as [H|H]; apply Z.eqb_eq in H.
      - exists n4. split; [lia|]. exists n100. lia.
      - exists 24. split; [lia|]. exists 3. lia. }
    destruct Hy as (c4 & Hc4 & c100 & Hc100 & Hc & -> & Hnn).
    unfold ymd2ord, days_before_month, days_in_month.
    rewrite is_leap_cycle, days_before_year_cycle by lia.
    replace ((3 =? 3) && (negb (c4 =? 24) || (c100 =? 3))) with true
      by (symmetry; destruct (Z.eqb_spec c4 24), (Z.eqb_spec c100 3);
          simpl; try reflexivity; lia).
    cbn. change (index DAYS_BEFORE_MONTH 12) with 334.
    change (index DAYS_IN_MONTH 12) with 31.
    unfold DI400Y, DI100Y, DI4Y, MAXORDINAL. lia.
  - apply orb_false_iff in Hsp. destruct Hsp as [H1 H100].
    apply Z.eqb_neq in H1, H100.
    set (leap := (n1 =? 3) && (negb (n4 =? 24) || (n100 =? 3))).
    destruct (month_day r4 leap) as [m d] eqn:Emd. cbn [fst snd].
    exists (n400 * 400 + 1 + n100 * 100 + n4 * 4 + n1), m, d.
    split; [reflexivity|].
    unfold ymd2ord, days_before_month, days_in_month.
    rewrite is_leap_cycle, days_before_year_cycle by lia. fold leap.
    pose proof (month_day_checked leap r4 (proj2 E4)) as Hmd.
    unfold month_day_ok in Hmd. rewrite Emd in Hmd. clear Emd. clearbody leap.
    repeat (apply andb_prop in Hmd; destruct Hmd as [Hmd ?]).
    unfold DI400Y, DI100Y, DI4Y, MAXORDINAL.
    assert (days_in : (if (m =? 2) && leap then 29 else index DAYS_IN_MONTH m)
                    = index DAYS_IN_MONTH m + (if (m =? 2) && leap then 1 else 0)).
    { destruct (Z.eqb_spec m 2) as [->|]; destruct leap; cbn;
        change (index DAYS_IN_MONTH 2) with 28; lia. }
    rewrite days_in. lia.
Qed.

Lemma valid_naive_iff n :
  valid_naive n = true ↔
    1 <= year n <= 9999 ∧ 1 <= month n <= 12
    ∧ 1 <= day n <= days_in_month (year n) (month n)
    ∧ 0 <= hour n < 24 ∧ 0 <= minute n < 60 ∧ 0 <= second n < 60
    ∧ 0 <= microsecond n < 1000000.
Proof.
  unfold valid_naive. rewrite !andb_true_iff, !Z.leb_le, !Z.ltb_lt. tauto.
Qed.

Lemma days_in_month_le y m : days_in_month y m <= 31.
Proof.
  unfold days_in_month. destruct ((m =? 2) && is_leap y); [lia|].
  unfold index, DAYS_IN_MONTH.
  generalize (Z.to_nat m). intros k.
  do 13 (destruct k as [|k]; [cbn; lia|]). destruct k; cbn; lia.
Qed.

Lemma of_seconds_spec t us :
  86400 <= t →
  to_seconds (of_seconds t us) = t
  ∧ microsecond (of_seconds t us) = us
  ∧ (t / 86400 <= MAXORDINAL → 0 <= us < 1000000 →
     valid_naive (of_seconds t us) = true).
Proof.
  intros Ht. unfold of_seconds.
  destruct (ord2ymd_spec (t / 86400))
    as (y & m & d & -> & Hord & Hm & Hd & Hy); [lia|].
  unfold to_seconds. cbn [year month day hour minute second microsecond].
  rewrite Hord. split; [lia|]. split; [reflexivity|].
  intros Hmax Hus. apply valid_naive_iff.
  cbn [year month day hour minute second microsecond]. lia.
Qed.

(** The bounds used for instants: the first second of the years 1 and
    1000, and the last second of the year 9999. *)
Example range_bounds :
  to_seconds (Naive 1 1 1 0 0 0 0) = 86400
  ∧ to_seconds (Naive 1000 1 1 0 0 0 0) = 86400 * 364878
  ∧ to_seconds (Naive 9999 12 31 23 59 59 0) = 86400 * (MAXORDINAL + 1) - 1.
Proof. repeat split; vm_compute; reflexivity. Qed.

(** Instants from the year 1000 on fall in a year of four digits. *)
Ltac eval_index :=
  repeat match goal with
         | |- context [index ?l ?k] =>
             let v := eval vm_compute in (index l k) in
             change (index l k) with v
         | H : context [index ?l ?k] |- _ =>
             let v := eval vm_compute in (index l k) in
             change (index l k) with v in H
         end.

Lemma day_of_year_le y m d :
  1 <= m <= 12 → d <= days_in_month y m →
  days_before_month y m + d <= 365 + (if is_leap y then 1 else 0).
Proof.
  intros Hm Hd. unfold days_before_month, days_in_month in *.
  assert (H : m = 1 ∨ m = 2 ∨ m = 3 ∨ m = 4 ∨ m = 5 ∨ m = 6 ∨ m = 7 ∨ m = 8
              ∨ m = 9 ∨ m = 10 ∨ m = 11 ∨ m = 12) by lia.
  destruct (is_leap y);
    repeat (destruct H as [->|H]; [eval_index; cbn in *; lia|]);
    subst m; eval_index; cbn in *; lia.
Qed.

Lemma ymd2ord_before_1000 y m d :
  1 <= y <= 999 → 1 <= m <= 12 → d <= days_in_month y m →
  ymd2ord y m d <= 364877.
Proof.
  intros Hy Hm Hd. pose proof (day_of_year_le y m d Hm Hd) as Hdoy.
  unfold ymd2ord. unfold is_leap in Hdoy. unfold days_before_year.
  destruct (y mod 4 =? 0) eqn:H4; cbn [andb] in Hdoy.
  - apply Z.eqb_eq in H4.
    assert (y <= 996) by lia.
    destruct (negb (y mod 100 =? 0) || (y mod 400 =? 0)); lia.
  - lia.
Qed.

Lemma of_seconds_year t us :
  86400 * 364878 <= t → t / 86400 <= MAXORDINAL →
  1000 <= year (of_seconds t us) <= 9999.
Proof.
  intros Ht Hmax. unfold of_seconds.
  destruct (ord2ymd_spec (t / 86400))
    as (y & m & d & -> & Hord & Hm & Hd & Hy); [lia|].
  cbn [year]. specialize (Hy Hmax).
  destruct (Z.le_gt_cases 1000 y) as [?|Hlt]; [lia|].
  pose proof (ymd2ord_before_1000 y m d). lia.
Qed.

(** The wire form reads back to the fields it was written from. *)
Lemma digit_val_digit d : 0 <= d <= 9 → digit_val (digit d) = Some d.
Proof.
  intros Hd.
  assert (H : d = 0 ∨ d = 1 ∨ d = 2 ∨ d = 3 ∨ d = 4 ∨ d = 5 ∨ d = 6 ∨ d = 7
              ∨ d = 8 ∨ d = 9) by lia.
  repeat (destruct H as [->|H]; [reflexivity|]). subst d. reflexivity.
Qed.

Lemma number_pad2 n : 0 <= n < 100 → number 0 (pad2 n) = Some n.
Proof.
  intros Hn. unfold pad2. cbn [number].
  rewrite !digit_val_digit by lia. cbn. f_equal. lia.
Qed.

Lemma number_pad4 n : 0 <= n < 10000 → number 0 (pad4 n) = Some n.
Proof.
  intros Hn. unfold pad4. cbn [number].
  rewrite !digit_val_digit by lia. cbn. f_equal. lia.
Qed.

Lemma decimal_year_pad4 y : 1000 <= y → decimal_year y = pad4 y.
Proof.
  intros Hy. unfold decimal_year.
  destruct (Z.ltb_spec y 10); [lia|]. destruct (Z.ltb_spec y 100); [lia|].
  destruct (Z.ltb_spec y 1000); [lia|]. reflexivity.
Qed.

Lemma read_basic_strftime n :
  valid_naive n = true → 1000 <= year n →
  read_basic (strftime n)
  = Some (Naive (year n) (month n) (day n) (hour n) (minute n) (second n) 0).
Proof.
  intros Hv H1000. apply valid_naive_iff in Hv.
  pose proof (days_in_month_le (year n) (month n)).
  unfold read_basic, strftime. rewrite decimal_year_pad4 by done.
  rewrite String.list_ascii_of_string_of_list_ascii.
  pose proof (number_pad4 (year n)) as Hy.
  pose proof (number_pad2 (month n)) as Hm.
  pose proof (number_pad2 (day n)) as Hd.
  pose proof (number_pad2 (hour n)) as Hh.
  pose proof (number_pad2 (minute n)) as Hmi.
  pose proof (number_pad2 (second n)) as Hs.
  unfold pad4, pad2 in *. cbn [app].
  change (Ascii.eqb "T" "T" && Ascii.eqb "Z" "Z") with true. cbv iota.
  rewrite Hy, Hm, Hd, Hh, Hmi, Hs by lia. reflexivity.
Qed.

Lemma is_digit_digit d : 0 <= d <= 9 → is_digit (digit d) = true.
Proof.
  intros Hd.
  assert (H : d = 0 ∨ d = 1 ∨ d = 2 ∨ d = 3 ∨ d = 4 ∨ d = 5 ∨ d = 6 ∨ d = 7
              ∨ d = 8 ∨ d = 9) by lia.
  repeat (destruct H as [->|H]; [reflexivity|]). subst d. reflexivity.
Qed.

Lemma wire_form_strftime n : 1000 <= year n → wire_form (strftime n) = true.
Proof.
  intros H1000. unfold wire_form, strftime. rewrite decimal_year_pad4 by done.
  rewrite String.list_ascii_of_string_of_list_ascii.
  unfold pad4, pad2. cbn [app forallb].
  rewrite !is_digit_digit by lia. reflexivity.
Qed.

Lemma read_instant_strftime n :
  valid_naive n = true → 1000 <= year n →
  read_instant (strftime n) = Some (to_seconds n).
Proof.
  intros Hv H1000. unfold read_instant. rewrite read_basic_strftime by done.
  reflexivity.
Qed.

(** The text written for an instant of a four-digit year. *)
Lemma strftime_of_seconds_spec t us :
  86400 * 364878 <= t < 86400 * (MAXORDINAL + 1) →
  wire_form (strftime (of_seconds t us)) = true
  ∧ read_instant (strftime (of_seconds t us)) = Some t.
Proof.
  intros Ht.
  assert (Hmax : t / 86400 <= MAXORDINAL) by (unfold MAXORDINAL in *; lia).
  pose proof (of_seconds_year t 0 ltac:(lia) Hmax) as Hy.
  destruct (of_seconds_spec t 0) as (Hs & _ & Hv); [lia|].
  specialize (Hv Hmax ltac:(lia)).
  assert (E : strftime (of_seconds t us) = strftime (of_seconds t 0)).
  { unfold of_seconds. destruct (ord2ymd (t / 86400)) as [[y m] d]. reflexivity. }
  rewrite E. split.
  - apply wire_form_strftime. lia.
  - rewrite read_instant_strftime by (done || lia). by rewrite Hs.
Qed.

End DatetimeFacts.
Import DatetimeFacts.


(** ** The loops of [main] *)

Section RunFacts.
Context (W : World).

Lemma build_vevent_eq event team st :
  build_vevent W event team st =
    match vevent_times W event team with
    | Raise e => (Raise e, st)
    | Ok (_, _, dtstart, dtend) =>
        (vevent_text W event team (strftime (clock_reading W (clock st)))
           dtstart dtend,
         tick st)
    end.
Proof.
  unfold build_vevent, vevent_times, vevent_text, utcnow, lift, tick.
  unfold mbind, run_bind, result_bind, mret, run_ret.
  case_results.
Qed.

Lemma event_iter_eq team ev st :
  event_iter W team ev st = (Ok tt, event_step W team st ev).
Proof.
  unfold event_iter, try_except, event_body, event_step, seen, seen_add,
    vevents_append, lift.
  unfold mbind, run_bind, mret, run_ret.
  destruct (uid_for W ev) as [u|e]; [|reflexivity].
  destruct (bool_decide (u ∈ seen_uids st)); [reflexivity|].
  rewrite build_vevent_eq. cbn [clock seen_uids vevents].
  destruct (vevent_times W ev team) as [[[[? ?] s] e]|?]; [|reflexivity].
  destruct (vevent_text _ _ _ _ _ _); reflexivity.
Qed.

Lemma for_each_event_iter team evs st :
  for_each evs (event_iter W team) st
  = (Ok tt, fold_left (event_step W team) evs st).
Proof.
  revert st. induction evs as [|ev evs IH]; intros st; [reflexivity|].
  cbn [for_each fold_left]. unfold mbind, run_bind.
  rewrite event_iter_eq. apply IH.
Qed.

Lemma team_iter_ok team st st' :
  team_iter W team st = (Ok tt, st') →
  st' = fold_left (event_step W team) (fetched W team) st.
Proof.
  unfold team_iter, fetched, lift. unfold mbind, run_bind, mret, run_ret.
  destruct (py_getitem team "team_id") as [tid|]; [|discriminate].
  destruct (py_get team "name"); [|discriminate].
  destruct (fetch_events W tid) as [events|]; [|by intros [= <-]].
  destruct (truthy events); cbn [negb]; [|by intros [= <-]].
  destruct (py_iter events) as [evs|]; [|discriminate].
  rewrite for_each_event_iter. by intros [= <-].
Qed.

Lemma fold_left_fmap_pair team evs st :
  fold_left (occurrence_step W) ((λ ev, (team, ev)) <$> evs) st
  = fold_left (event_step W team) evs st.
Proof. revert st. induction evs; intros; cbn; [done|]. apply IHevs. Qed.

Lemma for_each_team_iter teams st st' :
  for_each teams (team_iter W) st = (Ok tt, st') →
  st' = fold_left (occurrence_step W) (fetch_order W teams) st.
Proof.
  revert st. induction teams as [|team teams IH]; intros st.
  - cbn. by intros [= <-].
  - cbn [for_each]. unfold mbind at 1, run_bind at 1.
    destruct (team_iter W team st) as [[[]|] st1] eqn:Ht; [|discriminate].
    intros Hrest. apply team_iter_ok in Ht. apply IH in Hrest.
    unfold fetch_order. rewrite bind_cons, fold_left_app.
    rewrite fold_left_fmap_pair, <- Ht. exact Hrest.
Qed.

(** A run that completes has folded [occurrence_step] over the fetch
    order and written the assembled calendar. *)
Lemma main_ok teams doc st :
  main W (JList teams) initial = (Ok doc, st) →
  st = fold_left (occurrence_step W) (fetch_order W teams) initial
  ∧ doc = generate_calendar (vevents st).
Proof.
  unfold main, lift, get_vevents. unfold mbind at 1, run_bind at 1.
  cbn [py_iter]. unfold mbind at 1, run_bind at 1.
  destruct (for_each teams (team_iter W) initial) as [[[]|] st1] eqn:Hrun;
    [|discriminate].
  apply for_each_team_iter in Hrun.
  unfold mbind, run_bind, mret, run_ret. intros [= <- <-]. done.
Qed.

(** Whether an event renders does not depend on when it is rendered. *)
Lemma vevent_text_ok_indep ev team a a' s e :
  is_ok (vevent_text W ev team a s e) = is_ok (vevent_text W ev team a' s e).
Proof.
  unfold vevent_text. unfold mbind, result_bind. case_results.
Qed.

Lemma renders_eq team ev k :
  renders W team ev =
    match vevent_times W ev team with
    | Raise _ => false
    | Ok (_, _, s, e) =>
        is_ok (vevent_text W ev team (strftime (clock_reading W k)) s e)
    end.
Proof.
  unfold renders. rewrite build_vevent_eq.
  destruct (vevent_times W ev team) as [[[[? ?] s] e]|]; [|reflexivity].
  cbn [fst]. apply vevent_text_ok_indep.
Qed.

Lemma build_vevent_frame ev team st :
  (build_vevent W ev team st).1
  = (build_vevent W ev team (State ∅ [] (clock st))).1.
Proof.
  rewrite !build_vevent_eq.
  by destruct (vevent_times W ev team) as [[[[? ?] ?] ?]|].
Qed.

Lemma renders_any team ev st :
  is_ok (build_vevent W ev team st).1 = renders W team ev.
Proof.
  rewrite (renders_eq team ev (clock st)), build_vevent_eq.
  by destruct (vevent_times W ev team) as [[[[? ?] ?] ?]|].
Qed.

(** *** The trace of a run *)

Lemma first_occurrence_app_l occ x i :
  i < length occ → first_occurrence W (occ ++ [x]) i = first_occurrence W occ i.
Proof.
  intros Hi. unfold first_occurrence.
  rewrite lookup_app_l by done. rewrite take_app_le by lia. done.
Qed.

Lemma kept_app_l occ x i :
  i < length occ → kept W (occ ++ [x]) i = kept W occ i.
Proof.
  intros Hi. unfold kept. rewrite first_occurrence_app_l by done.
  by rewrite lookup_app_l.
Qed.

Lemma kept_indices_snoc occ x :
  kept_indices W (occ ++ [x])
  = kept_indices W occ
    ++ (if kept W (occ ++ [x]) (length occ) then [length occ] else []).
Proof.
  unfold kept_indices. rewrite length_app. cbn [length].
  rewrite seq_app, List.filter_app. cbn [seq List.filter]. f_equal.
  apply List.filter_ext_in. intros i Hi. apply in_seq in Hi.
  apply kept_app_l. lia.
Qed.

Lemma rendering_app_l occ x ik b :
  rendering W occ ik b → rendering W (occ ++ [x]) ik b.
Proof.
  intros (t & e & Hl & Hb). exists t, e. split; [|done].
  by apply lookup_app_l_Some.
Qed.

Lemma forallb_has_uid occ u :
  forallb (λ te, negb (has_uid W u te)) occ = true ↔ ¬ uid_known W occ u.
Proof.
  rewrite forallb_forall. split.
  - intros H (te & Hin & Hu). apply list_elem_of_In, H in Hin.
    by rewrite Hu in Hin.
  - intros H te Hin. destruct (has_uid W u te) eqn:Hu; [|done].
    exfalso. apply H. exists te. split; [by apply list_elem_of_In|done].
Qed.

Lemma uid_known_snoc occ x u :
  uid_known W (occ ++ [x]) u ↔ uid_known W occ u ∨ has_uid W u x = true.
Proof.
  unfold uid_known. split.
  - intros (te & Hin & Hu). apply elem_of_app in Hin as [Hin|Hin]; [eauto|].
    apply list_elem_of_singleton in Hin as ->. by right.
  - intros [(te & Hin & Hu)|Hu].
    + exists te. split; [|done]. apply elem_of_app. by left.
    + exists x. split; [|done]. apply elem_of_app. right.
      by apply list_elem_of_singleton.
Qed.

Lemma has_uid_spec u t e : has_uid W u (t, e) = true ↔ uid_for W e = Ok u.
Proof.
  unfold has_uid. cbn. destruct (uid_for W e) as [v|]; [|done].
  rewrite bool_decide_eq_true. split; congruence.
Qed.

Lemma run_trace occ :
  ∃ tr, trace_inv W occ (fold_left (occurrence_step W) occ initial) tr.
Proof.
  induction occ as [|[t e] occ IH] using rev_ind.
  - exists []. split; cbn; try by constructor.
    intros u. split; [set_solver|]. intros (te & Hin & _). set_solver.
  - destruct IH as [tr [Hseen Hix Hsort Hclk Hbl]].
    rewrite fold_left_app. cbn [fold_left].
    set (st := fold_left (occurrence_step W) occ initial) in *.
    unfold occurrence_step at 1. cbn [fst snd]. unfold event_step.
    assert (Hkept : kept W (occ ++ [(t, e)]) (length occ) =
              match uid_for W e with
              | Ok u => negb (bool_decide (u ∈ seen_uids st)) && renders W t e
              | Raise _ => false
              end).
    { unfold kept, first_occurrence.
      rewrite list_lookup_middle by done. rewrite take_app_length.
      destruct (uid_for W e) as [u|]; [|done]. f_equal.
      apply eq_true_iff_eq.
      rewrite forallb_has_uid, negb_true_iff, bool_decide_eq_false.
      by rewrite Hseen. }
    assert (Hold : Forall2 (rendering W (occ ++ [(t, e)])) tr (vevents st)).
    { eapply Forall2_impl; [done|]. intros. by apply rendering_app_l. }
    destruct (uid_for W e) as [u|err] eqn:Hu.
    + destruct (bool_decide (u ∈ seen_uids st)) eqn:Hdup.
      * (* a repeat: dropped *)
        exists tr. split; try done.
        -- intros v. rewrite uid_known_snoc, <- Hseen, has_uid_spec.
           apply bool_decide_eq_true in Hdup. split; [tauto|].
           intros [?|?]; [done|]. congruence.
        -- rewrite kept_indices_snoc, Hkept. cbn. by rewrite app_nil_r.
      * assert (Hseen' : ∀ st', seen_uids st' = {[u]} ∪ seen_uids st →
                  ∀ v, v ∈ seen_uids st' ↔ uid_known W (occ ++ [(t, e)]) v).
        { intros st' -> v. rewrite uid_known_snoc, <- Hseen, has_uid_spec.
          rewrite elem_of_union, elem_of_singleton. split.
          - intros [->|?]; [by right|by left].
          - intros [?|?]; [by right|left; congruence]. }
        rewrite (renders_eq t e (clock st)) in Hkept. cbn [negb andb] in Hkept.
        destruct (vevent_times W e t) as [[[[? ?] s] en]|] eqn:Htimes.
        -- destruct (vevent_text W e t _ s en) as [b|] eqn:Htext.
           ++ (* first occurrence, rendered *)
              exists (tr ++ [(length occ, clock st)]). split.
              ** by apply Hseen'.
              ** rewrite fmap_app, Hix, kept_indices_snoc, Hkept. done.
              ** rewrite fmap_app. cbn.
                 apply StronglySorted_app_2; [|done|repeat constructor].
                 intros a b' Ha Hb. apply list_elem_of_singleton in Hb as ->.
                 by eapply Forall_forall in Hclk.
              ** rewrite fmap_app. cbn. apply Forall_app. split.
                 --- eapply Forall_impl; [done|]. cbn. lia.
                 --- repeat constructor.
              ** cbn. apply Forall2_app; [done|].
                 repeat constructor. exists t, e. cbn. split.
                 { by apply list_lookup_middle. }
                 rewrite build_vevent_eq, Htimes. cbn. done.
           ++ (* first occurrence, rendering failed after the clock was read *)
              exists tr. split; try done.
              ** by apply Hseen'.
              ** rewrite kept_indices_snoc, Hkept. cbn. by rewrite app_nil_r.
              ** eapply Forall_impl; [done|]. cbn. lia.
        -- (* first occurrence, rendering failed before the clock was read *)
           exists tr. split; try done.
           ** by apply Hseen'.
           ** rewrite kept_indices_snoc, Hkept. cbn. by rewrite app_nil_r.
    + (* no uid: skipped *)
      exists tr. split; try done.
      * intros v. rewrite uid_known_snoc, <- Hseen, has_uid_spec.
        split; [tauto|]. intros [?|?]; [done|congruence].
      * rewrite kept_indices_snoc, Hkept. cbn. by rewrite app_nil_r.
Qed.

End RunFacts.

(** ** Normalisation and rendering *)

Section RenderFacts.
Context (W : World).

Lemma truthy_present kvs k : truthy (default JNull (kvs !! k)) = true ↔ present kvs k.
Proof. reflexivity. Qed.

Lemma DEFAULT_TZ_unset : environ W !! "DEFAULT_TZ" = None → DEFAULT_TZ W = "UTC".
Proof. unfold DEFAULT_TZ, environ_get. by intros ->. Qed.

(** [make_dt] returns an aware value: the parsed one, with a [tzinfo] of
    the fallback zone's offset attached when it had none. *)
Lemma make_dt_spec event dt :
  make_dt W event = Ok dt →
  ∃ kvs parsed,
    event = JDict kvs ∧ parsed_as W kvs parsed
    ∧ wall dt = wall parsed ∧ is_Some (tzinfo dt)
    ∧ normalized W parsed (utc_offset dt)
    ∧ (tzinfo parsed = None → ∀ d, steady_offset dt d).
Proof.
  destruct event as [| | | | |kvs]; try discriminate.
  unfold make_dt. cbn [py_get]. unfold mbind, result_bind.
  fold (field kvs "dateEvent") (field kvs "strTime").
  destruct (truthy (field kvs "dateEvent")) eqn:Hdate; cbn [negb]; [|discriminate].
  assert (Hshape : ∀ n (tz : option (naive → Z)) dt0,
            parsed_as W kvs (Datetime n tz) →
            match tz with
            | None =>
                match pytz_timezone W (DEFAULT_TZ W) with
                | Ok z => match z n with
                          | Ok o => Ok (Datetime n (Some (λ _, o)))
                          | Raise e => Raise e
                          end
                | Raise e => Raise e
                end
            | Some _ => Ok (Datetime n tz)
            end = Ok dt0 →
            ∃ kvs0 parsed,
              JDict kvs = JDict kvs0 ∧ parsed_as W kvs0 parsed
              ∧ wall dt0 = wall parsed ∧ is_Some (tzinfo dt0)
              ∧ normalized W parsed (utc_offset dt0)
              ∧ (tzinfo parsed = None → ∀ d, steady_offset dt0 d)).
  { intros n [o|] dt0 Hp.
    - intros [= <-]. exists kvs, (Datetime n (Some o)).
      split_and!; try done; try (by eexists); by constructor.
    - destruct (pytz_timezone W (DEFAULT_TZ W)) as [z|] eqn:Hzone; [|discriminate].
      destruct (z n) as [o|] eqn:Ho; [|discriminate].
      intros [= <-]. exists kvs, (Datetime n None).
      split_and!; try done; try (by eexists); by econstructor. }
  destruct (truthy (field kvs "strTime")) eqn:Htime.
  - cbn [parse].
    destruct (parser_parse W _) as [[n tz]|] eqn:Hparse; [|discriminate].
    cbn [tzinfo wall]. apply Hshape. by eapply parsed_date_time.
  - destruct (field kvs "dateEvent") as [| | |d| |] eqn:Hd; try discriminate.
    cbn [parse].
    destruct (parser_parse W d) as [[n tz]|] eqn:Hparse; [|discriminate].
    cbn [tzinfo wall]. apply Hshape.
    eapply parsed_date; try done. unfold present. by rewrite Hd.
Qed.


(** Conversely, what the parser answers and the offset it is read with
    settle the result of [make_dt]. *)
Lemma make_dt_parsed kvs parsed o :
  parsed_as W kvs parsed → normalized W parsed o →
  ∃ dt, make_dt W (JDict kvs) = Ok dt
    ∧ wall dt = wall parsed ∧ is_Some (tzinfo dt) ∧ utc_offset dt = o.
Proof.
  intros Hp Hn. unfold make_dt. cbn [py_get]. unfold mbind, result_bind.
  fold (field kvs "dateEvent") (field kvs "strTime").
  assert (Hparse : ∃ raw, parse W raw = Ok parsed
            ∧ (if negb (truthy (field kvs "dateEvent")) then None
               else Some (if truthy (field kvs "strTime")
                          then JStr (py_str W (field kvs "dateEvent") +:+ " "
                                     +:+ py_str W (field kvs "strTime"))
                          else field kvs "dateEvent")) = Some raw).
  { destruct Hp as [dt Hd Ht Hparse|d dt Hd Ht Hs Hparse];
      unfold present, absent in *; rewrite Hd, Ht; cbn [negb].
    - eexists. split; [|reflexivity]. exact Hparse.
    - eexists. split; [|reflexivity]. rewrite Hs. exact Hparse. }
  destruct Hparse as (raw & Hparse & Hraw).
  destruct (negb (truthy (field kvs "dateEvent"))); [discriminate|].
  injection Hraw as ->. rewrite Hparse.
  inversion Hn as [n tz Heq|n tz o' Hzone Ho Heq]; subst; cbn [tzinfo wall].
  - eexists. split; [reflexivity|]. repeat split. by eexists.
  - rewrite Hzone, Ho. eexists. split; [reflexivity|]. repeat split. by eexists.
Qed.

Lemma range_representable t :
  (0 <? t / 86400)%Z && (t / 86400 <=? MAXORDINAL)%Z = true ↔ representable t.
Proof.
  unfold representable, MAXORDINAL.
  rewrite andb_true_iff, Z.ltb_lt, Z.leb_le. lia.
Qed.

(** [to_utc_rfc] on an aware value, by cases: the offset is refused, the
    UTC instant is out of range, or the instant is written. *)
Lemma to_utc_rfc_eq dt :
  is_Some (tzinfo dt) →
  to_utc_rfc W dt =
    if valid_offset (utc_offset dt) then
      if (0 <? instant dt / 86400)%Z && (instant dt / 86400 <=? MAXORDINAL)%Z
      then Ok (strftime (of_seconds (instant dt) (microsecond (wall dt))))
      else Raise OverflowError
    else Raise offset_out_of_range.
Proof.
  intros [tz Htz].
  unfold to_utc_rfc, astimezone_utc, shift, instant, utc_offset. rewrite Htz.
  destruct (valid_offset _); [|reflexivity]. unfold mbind, result_bind.
  replace (to_seconds (wall dt) + - tz (wall dt))%Z
    with (to_seconds (wall dt) - tz (wall dt))%Z by lia.
  by destruct (_ && _).
Qed.

Lemma to_utc_rfc_ok dt :
  is_Some (tzinfo dt) → utc_convertible dt →
  to_utc_rfc W dt = Ok (strftime (of_seconds (instant dt) (microsecond (wall dt)))).
Proof.
  intros Htz [Ho Hr]. rewrite to_utc_rfc_eq by done. rewrite Ho.
  apply range_representable in Hr. by rewrite Hr.
Qed.

Lemma to_utc_rfc_inv dt s :
  is_Some (tzinfo dt) → to_utc_rfc W dt = Ok s →
  utc_convertible dt
  ∧ s = strftime (of_seconds (instant dt) (microsecond (wall dt))).
Proof.
  intros Htz. rewrite to_utc_rfc_eq by done. unfold utc_convertible.
  destruct (valid_offset _); [|discriminate].
  destruct (_ && _) eqn:Hr; [|discriminate].
  apply range_representable in Hr. by intros [= <-].
Qed.

Lemma four_digit_year_representable t : four_digit_year t → representable t.
Proof. unfold four_digit_year, representable. lia. Qed.

(** [dt + timedelta(minutes=m)], by cases. *)
Lemma add_minutes_eq dt m :
  add_minutes dt m =
    if (0 <? (to_seconds (wall dt) + 60 * m) / 86400)%Z
       && ((to_seconds (wall dt) + 60 * m) / 86400 <=? MAXORDINAL)%Z
    then Ok (end_of dt m) else Raise OverflowError.
Proof.
  unfold add_minutes, shift, end_of. unfold mbind, result_bind.
  by destruct (_ && _).
Qed.



Lemma vevent_text_shape ev team stamp s e block :
  vevent_text W ev team stamp s e = Ok block →
  ∃ uid, uid_for W ev = Ok uid ∧ block_with uid stamp s e block.
Proof.
  unfold vevent_text. unfold mbind, result_bind.
  destruct (uid_for W ev) as [uid|]; [|discriminate].
  destruct (py_get_default team _ _); [|discriminate].
  destruct (event_title ev); [|discriminate].
  destruct (py_get ev "strVenue"); [|discriminate].
  destruct (py_get ev "strVenueLocation"); [|discriminate].
  destruct (py_get ev "strLeague"); [|discriminate].
  intros [= <-]. exists uid. split; [done|]. unfold block_with. eauto.
Qed.

(** A block that was built carries the reading the clock gave to its own
    call. *)
Lemma build_vevent_shape ev team st block :
  (build_vevent W ev team st).1 = Ok block →
  ∃ dt d uid dtstart dtend,
    vevent_times W ev team = Ok (dt, d, dtstart, dtend)
    ∧ uid_for W ev = Ok uid
    ∧ block_with uid (strftime (clock_reading W (clock st))) dtstart dtend block.
Proof.
  rewrite build_vevent_eq.
  destruct (vevent_times W ev team) as [[[[dt d] s] e]|]; [|discriminate].
  cbn [fst]. intros (uid & Hu & Hb)%vevent_text_shape.
  exists dt, d, uid, s, e. auto.
Qed.

Lemma vevent_times_spec ev team dt d s e :
  vevent_times W ev team = Ok (dt, d, s, e) →
  ∃ kvs dt',
    team = JDict kvs
    ∧ make_dt W ev = Ok dt
    ∧ py_int W (default (JInt 120) (kvs !! "duration_minutes")) = Ok d
    ∧ to_utc_rfc W dt = Ok s
    ∧ add_minutes dt d = Ok dt'
    ∧ to_utc_rfc W dt' = Ok e.
Proof.
  unfold vevent_times. unfold mbind, result_bind.
  destruct (make_dt W ev) as [dt0|]; [|discriminate].
  destruct team as [| | | | |kvs]; try discriminate. cbn [py_get_default].
  destruct (py_int W _) as [d0|] eqn:Hint; [|discriminate].
  destruct (to_utc_rfc W dt0) as [s0|] eqn:Hs; [|discriminate].
  destruct (add_minutes dt0 d0) as [dt'|] eqn:Hadd; [|discriminate].
  destruct (to_utc_rfc W dt') as [e0|] eqn:He; [|discriminate].
  intros [= <- <- <- <-]. exists kvs, dt'. auto 10.
Qed.

Lemma configured_duration_spec kvs d :
  configured_duration W kvs d ↔
  py_int W (default (JInt 120) (kvs !! "duration_minutes")) = Ok d.
Proof.
  split.
  - intros [H|v d' H Hint]; rewrite H; done.
  - destruct (kvs !! "duration_minutes") as [v|] eqn:H; cbn.
    + by apply duration_override.
    + intros [= <-]. by apply duration_default.
Qed.

Lemma make_dt_aware event dt : make_dt W event = Ok dt → is_Some (tzinfo dt).
Proof.
  intros (_ & _ & _ & _ & _ & Htz & _)%make_dt_spec. exact Htz.
Qed.

Lemma event_title_titled kvs :
  titled kvs → is_ok (event_title (JDict kvs)) = true.
Proof.
  unfold event_title. cbn [py_get]. unfold mbind, result_bind.
  fold (field kvs "strEvent") (field kvs "strHomeTeam") (field kvs "strAwayTeam").
  intros [Hp|(home & away & -> & ->)].
  - by rewrite Hp.
  - by destruct (truthy (field kvs "strEvent")).
Qed.

(** The two halves of [build_vevent] when nothing stands in their way. *)
Lemma vevent_times_ok ev team dt d :
  make_dt W ev = Ok dt → configured_duration W team d →
  utc_convertible dt →
  representable (to_seconds (wall dt) + 60 * d) →
  utc_convertible (end_of dt d) →
  vevent_times W ev (JDict team)
  = Ok (dt, d,
        strftime (of_seconds (instant dt) (microsecond (wall dt))),
        strftime (of_seconds (instant (end_of dt d))
                    (microsecond (wall (end_of dt d))))).
Proof.
  intros Hdt Hd Hc1 Hr2 Hc3.
  pose proof (make_dt_aware _ _ Hdt) as Htz.
  apply configured_duration_spec in Hd.
  pose proof (to_utc_rfc_ok dt Htz Hc1) as Hs.
  pose proof (add_minutes_eq dt d) as Hadd.
  apply range_representable in Hr2. rewrite Hr2 in Hadd.
  pose proof (to_utc_rfc_ok (end_of dt d) Htz Hc3) as He.
  unfold vevent_times. cbn [py_get_default].
  unfold mbind, result_bind. by rewrite Hdt, Hd, Hs, Hadd, He.
Qed.

Lemma vevent_text_ok kvs team uid stamp s e :
  uid_for W (JDict kvs) = Ok uid → titled kvs →
  ∃ block,
    vevent_text W (JDict kvs) (JDict team) stamp s e = Ok block
    ∧ block_with uid stamp s e block.
Proof.
  intros Hu Ht.
  pose proof (event_title_titled _ Ht) as Htitle.
  destruct (vevent_text W (JDict kvs) (JDict team) stamp s e) as [block|err] eqn:Hb.
  - exists block. split; [done|].
    apply vevent_text_shape in Hb as (uid' & Hu' & Hshape). congruence.
  - exfalso. revert Hb. unfold vevent_text. rewrite Hu.
    cbn [py_get_default py_get]. unfold mbind, result_bind.
    destruct (event_title (JDict kvs)); [discriminate|discriminate Htitle].
Qed.

End RenderFacts.

(** ** The claims *)

Section Normalizer.
Context (W : World).

(** C1 (amended).  The normalizer reads the parsed date/time as a UTC
    instant: a parsed value that carries an offset is converted by that
    offset, one that carries none is taken as wall-clock time in the
    fallback zone (UTC when [DEFAULT_TZ] is unset).  When the offset is
    within 24 hours and the instant falls in the years 1000 to 9999, the
    normalizer and the writer both succeed, the text written is that
    instant in the wire form YYYYMMDDTHHMMSSZ, it is the DTSTART of every
    block rendered for the event, and such a block is rendered whenever
    the rest of the rendering meets no obstacle. *)
Theorem dtstart_utc_instant (HW : World_ok W) kvs parsed o :
  parsed_as W kvs parsed → normalized W parsed o →
  valid_offset o = true →
  four_digit_year (to_seconds (wall parsed) - o) →
  ∃ dt s,
    make_dt W (JDict kvs) = Ok dt
    ∧ instant dt = (to_seconds (wall parsed) - o)%Z
    ∧ (tzinfo parsed = None → environ W !! "DEFAULT_TZ" = None →
       instant dt = to_seconds (wall parsed))
    ∧ to_utc_rfc W dt = Ok s
    ∧ wire_form s = true
    ∧ read_instant s = Some (instant dt)
    ∧ (∀ team st block st',
         build_vevent W (JDict kvs) team st = (Ok block, st') →
         ∃ uid dtstamp dtend, block_with uid dtstamp s dtend block)
    ∧ (∀ team d uid st,
         uid_for W (JDict kvs) = Ok uid → configured_duration W team d →
         representable (to_seconds (wall dt) + 60 * d) →
         utc_convertible (end_of dt d) → titled kvs →
         ∃ block dtstamp dtend,
           build_vevent W (JDict kvs) (JDict team) st = (Ok block, tick st)
           ∧ block_with uid dtstamp s dtend block).
Proof.
  intros Hp Hn Ho Hy.
  destruct (make_dt_parsed W kvs parsed o Hp Hn) as (dt & Hdt & Hwall & Htz & Hoff).
  assert (Hi : instant dt = (to_seconds (wall parsed) - o)%Z)
    by (unfold instant; by rewrite Hwall, Hoff).
  assert (Hc : utc_convertible dt).
  { split; [by rewrite Hoff|]. rewrite Hi. by apply four_digit_year_representable. }
  pose proof (to_utc_rfc_ok W dt Htz Hc) as Hs.
  destruct (strftime_of_seconds_spec (instant dt) (microsecond (wall dt)))
    as [Hwire Hread]; [by rewrite Hi|].
  exists dt, (strftime (of_seconds (instant dt) (microsecond (wall dt)))).
  split_and!; try done.
  - intros Hnone Henv. rewrite Hi.
    destruct Hn as [n tz|n tz o Hzone Hloc]; [discriminate|].
    rewrite (DEFAULT_TZ_unset W Henv) in Hzone.
    rewrite (zone_utc W HW tz n Hzone) in Hloc. injection Hloc as <-. lia.
  - intros team st block st' Hb.
    assert (Hb1 : (build_vevent W (JDict kvs) team st).1 = Ok block)
      by by rewrite Hb.
    apply build_vevent_shape in Hb1 as (dt1 & d & uid & s & e & Ht & Hu & Hblock).
    apply vevent_times_spec in Ht as (tk & dt' & -> & Hdt1 & _ & Hs1 & _).
    assert (dt1 = dt) as -> by congruence.
    assert (s = strftime (of_seconds (instant dt) (microsecond (wall dt))))
      as -> by congruence.
    by exists uid, (strftime (clock_reading W (clock st))), e.
  - intros team d uid st Hu Hd Hr2 Hc3 Ht.
    rewrite build_vevent_eq.
    rewrite (vevent_times_ok W _ team dt d Hdt Hd Hc Hr2 Hc3).
    destruct (vevent_text_ok W kvs team uid
                (strftime (clock_reading W (clock st)))
                (strftime (of_seconds (instant dt) (microsecond (wall dt))))
                (strftime (of_seconds (instant (end_of dt d))
                             (microsecond (wall (end_of dt d))))) Hu Ht)
      as (block & -> & Hshape).
    eauto.
Qed.


End Normalizer.

(** ** One turn of the inner loop, by cases *)

Section Turns.
Context (W : World).

Lemma event_step_rendered team ev u st :
  uid_for W ev = Ok u → u ∉ seen_uids st → renders W team ev = true →
  ∃ b, event_step W team st ev = append b (tick (mark u st)).
Proof.
  intros Hu Hnew Hr. unfold event_step. rewrite Hu.
  rewrite bool_decide_eq_false_2 by done.
  rewrite (renders_eq W team _ (clock st)) in Hr.
  destruct (vevent_times W ev team) as [[[[? ?] s] e]|]; [|done].
  destruct (vevent_text W _ _ _ s e) as [b|]; [|done].
  by exists b.
Qed.


Lemma event_step_repeat team ev u st :
  uid_for W ev = Ok u → u ∈ seen_uids st → event_step W team st ev = st.
Proof.
  intros Hu Hin. unfold event_step. rewrite Hu.
  by rewrite bool_decide_eq_true_2.
Qed.

(** A uid that was marked before and that the event does not derive stays
    out of the event's way. *)
Lemma event_step_mark team ev u0 st :
  uid_for W ev ≠ Ok u0 →
  event_step W team (mark u0 st) ev = mark u0 (event_step W team st ev).
Proof.
  intros Hne. unfold event_step.
  destruct (uid_for W ev) as [u|] eqn:Hu; [|done].
  assert (u ≠ u0) by congruence.
  assert (Hcomm : ∀ S : gset string, {[u]} ∪ ({[u0]} ∪ S) = {[u0]} ∪ ({[u]} ∪ S)).
  { intros S. by rewrite !(assoc_L (∪)), (comm_L (∪) {[u]}). }
  destruct (decide (u ∈ seen_uids st)) as [Hin|Hout].
  - rewrite !bool_decide_eq_true_2; [done|done|].
    cbn. by apply elem_of_union_r.
  - rewrite !bool_decide_eq_false_2; [|done|].
    + cbn [mark clock seen_uids vevents].
      destruct (vevent_times W ev team) as [[[[? ?] s] e]|].
      * destruct (vevent_text W _ _ _ s e) as [b|];
          unfold append, tick, mark; cbn; by rewrite Hcomm.
      * unfold mark; cbn; by rewrite Hcomm.
    + cbn. intros [->%elem_of_singleton|?]%elem_of_union; done.
Qed.

Lemma fold_event_step_mark team evs u0 st :
  (∀ ev, ev ∈ evs → uid_for W ev ≠ Ok u0) →
  fold_left (event_step W team) evs (mark u0 st)
  = mark u0 (fold_left (event_step W team) evs st).
Proof.
  revert st. induction evs as [|ev evs IH]; intros st Hall; [done|].
  cbn [fold_left]. rewrite event_step_mark by (apply Hall, list_elem_of_here).
  apply IH. intros ev' Hin. by apply Hall, list_elem_of_further.
Qed.

End Turns.

Section Identity.
Context (W : World).

Lemma UID_DOMAIN_unset : environ W !! "ICS_DOMAIN" = None → UID_DOMAIN W = "github.io".
Proof. unfold UID_DOMAIN, environ_get. by intros ->. Qed.

Lemma league_part_spec kvs league :
  league_part kvs league →
  py_replace_space (py_or (field kvs "strLeague") (JStr "league")) = Ok league.
Proof.
  unfold py_or. intros [s Hp Hs|Ha].
  - rewrite Hp, Hs. done.
  - rewrite Ha. done.
Qed.

(** C3.  The uid of an event is [{league}-{eventId}@{domain}]: the league
    name with each space turned into an underscore, or the word league
    when there is no league name; the first present of the two identifier
    fields; and the configured domain, [github.io] when none is set. *)
Theorem uid_for_format kvs league eid :
  league_part kvs league → event_id kvs eid →
  uid_for W (JDict kvs)
  = Ok (league +:+ "-" +:+ py_str W eid +:+ "@" +:+ UID_DOMAIN W)
  ∧ UID_DOMAIN W = default "github.io" (environ W !! "ICS_DOMAIN").
Proof.
  intros Hl He. split; [|reflexivity].
  unfold uid_for. cbn [py_get]. unfold mbind, result_bind.
  fold (field kvs "strLeague") (field kvs "idEvent") (field kvs "id").
  rewrite (league_part_spec _ _ Hl).
  destruct He as [Hp|Ha Hp].
  - by rewrite Hp.
  - by rewrite Ha.
Qed.

End Identity.

Section Recovery.
Context (W : World).

(** C7 (amended).  Rendering an event that passed the normalizer and the
    identity filter succeeds when the team's duration is absent or
    convertible to an integer, start and end can be taken to UTC (the
    offset within 24 hours and the instant within the range of
    [datetime]), the end stays within that range on the wall clock too,
    and the event has a title or string names for both sides. *)
Theorem build_vevent_succeeds ev team dt uid d :
  make_dt W (JDict ev) = Ok dt → uid_for W (JDict ev) = Ok uid →
  configured_duration W team d →
  utc_convertible dt →
  representable (to_seconds (wall dt) + 60 * d) →
  utc_convertible (end_of dt d) →
  titled ev →
  ∀ st, ∃ block,
    build_vevent W (JDict ev) (JDict team) st = (Ok block, tick st).
Proof.
  intros Hdt Hu Hd Hc1 Hr2 Hc3 Ht st.
  rewrite build_vevent_eq.
  rewrite (vevent_times_ok W _ team dt d Hdt Hd Hc1 Hr2 Hc3).
  destruct (vevent_text_ok W ev team uid
              (strftime (clock_reading W (clock st)))
              (strftime (of_seconds (instant dt) (microsecond (wall dt))))
              (strftime (of_seconds (instant (end_of dt d))
                           (microsecond (wall (end_of dt d))))) Hu Ht)
    as (block & -> & _).
  by exists block.
Qed.

(** C8 (amended).  An event without a date fails normalization with the
    error for a missing date and contributes nothing, but its uid has been
    recorded by then: the siblings that derive another uid are processed
    as if the event were not there, while a sibling that derives the same
    uid after it is dropped as a repeat.  So a valid fixture, a fixture
    with no date and another valid fixture, of three different uids, yield
    two VEVENT blocks. *)
Theorem missing_date_skips_event kvs :
  absent kvs "dateEvent" →
  make_dt W (JDict kvs) = Raise (ValueError "Event missing dateEvent")
  ∧ (∀ team st, ∃ st',
        event_iter W team (JDict kvs) st = (Ok tt, st')
        ∧ vevents st' = vevents st ∧ clock st' = clock st)
  ∧ (∀ team before after st,
        (∀ ev u, ev ∈ after → uid_for W (JDict kvs) = Ok u →
                 uid_for W ev ≠ Ok u) →
        ∃ st1 st2,
          for_each (before ++ JDict kvs :: after) (event_iter W team) st
          = (Ok tt, st1)
          ∧ for_each (before ++ after) (event_iter W team) st = (Ok tt, st2)
          ∧ vevents st1 = vevents st2 ∧ clock st1 = clock st2)
  ∧ (∀ team ev u st,
        uid_for W (JDict kvs) = Ok u → uid_for W ev = Ok u →
        ∃ st',
          for_each [JDict kvs; ev] (event_iter W team) st = (Ok tt, st')
          ∧ vevents st' = vevents st ∧ clock st' = clock st)
  ∧ (∀ team first last u1 u3 st,
        uid_for W first = Ok u1 → uid_for W last = Ok u3 →
        u1 ≠ u3 → uid_for W (JDict kvs) ≠ Ok u3 →
        u1 ∉ seen_uids st → u3 ∉ seen_uids st →
        renders W team first = true → renders W team last = true →
        ∃ b1 b3 st',
          for_each [first; JDict kvs; last] (event_iter W team) st = (Ok tt, st')
          ∧ vevents st' = vevents st ++ [b1; b3]).
Proof.
  intros Ha.
  assert (Hdt : make_dt W (JDict kvs) = Raise (ValueError "Event missing dateEvent")).
  { unfold make_dt. cbn [py_get]. unfold mbind, result_bind.
    fold (field kvs "dateEvent"). by rewrite Ha. }
  assert (Hstep : ∀ team st,
            event_step W team st (JDict kvs) = st
            ∨ ∃ u, uid_for W (JDict kvs) = Ok u
                   ∧ event_step W team st (JDict kvs) = mark u st).
  { intros team st. unfold event_step.
    destruct (uid_for W (JDict kvs)) as [u|]; [|by left].
    destruct (bool_decide (u ∈ seen_uids st)); [by left|].
    unfold vevent_times. rewrite Hdt. right. by exists u. }
  assert (Hseen : ∀ team st u,
            uid_for W (JDict kvs) = Ok u →
            u ∈ seen_uids (event_step W team st (JDict kvs))).
  { intros team st u Hu. unfold event_step. rewrite Hu.
    destruct (bool_decide (u ∈ seen_uids st)) eqn:Hd.
    - by apply bool_decide_eq_true in Hd.
    - unfold vevent_times. rewrite Hdt. cbn.
      apply elem_of_union_l, elem_of_singleton. reflexivity. }
  split; [done|]. split; [|split; [|split]].
  - intros team st. exists (event_step W team st (JDict kvs)).
    rewrite event_iter_eq. by destruct (Hstep team st) as [->|(u & _ & ->)].
  - intros team before after st Hother.
    rewrite !for_each_event_iter, !fold_left_app. cbn [fold_left]. do 2 eexists.
    split; [done|]. split; [done|].
    destruct (Hstep team (fold_left (event_step W team) before st))
      as [->|(u & Hu & ->)]; [done|].
    rewrite fold_event_step_mark; [done|].
    intros ev Hin. by eapply Hother.
  - intros team ev u st Hu Hev.
    rewrite for_each_event_iter. cbn [fold_left]. eexists. split; [done|].
    rewrite (event_step_repeat W team ev u) by auto.
    by destruct (Hstep team st) as [->|(v & _ & ->)].
  - intros team first last u1 u3 st Hu1 Hu3 Hne Hne2 Hn1 Hn3 Hr1 Hr3.
    rewrite for_each_event_iter. cbn [fold_left].
    destruct (event_step_rendered W team first u1 st Hu1 Hn1 Hr1) as [b1 ->].
    set (st1 := append b1 (tick (mark u1 st))).
    assert (Hn3' : u3 ∉ seen_uids (event_step W team st1 (JDict kvs))).
    { destruct (Hstep team st1) as [->|(v & Hv & ->)]; subst st1; cbn.
      - intros [->%elem_of_singleton|?]%elem_of_union; done.
      - intros [->%elem_of_singleton|[->%elem_of_singleton|?]%elem_of_union]%elem_of_union;
          done. }
    destruct (event_step_rendered W team last u3 _ Hu3 Hn3' Hr3) as [b3 ->].
    exists b1, b3. eexists. split; [done|].
    cbn. destruct (Hstep team st1) as [->|(v & _ & ->)];
      subst st1; cbn; by rewrite <- app_assoc.
Qed.

Lemma for_each_app {A} (xs ys : list A) (body : A → Run unit) st :
  for_each (xs ++ ys) body st =
    match for_each xs body st with
    | (Ok _, st1) => for_each ys body st1
    | (Raise e, st1) => (Raise e, st1)
    end.
Proof.
  revert st. induction xs as [|x xs IH]; intros st; [done|].
  cbn [app for_each]. unfold mbind, run_bind.
  destruct (body x st) as [[[]|] st1]; [apply IH|done].
Qed.

Lemma main_eq teams st :
  main W (JList teams) st =
    match for_each teams (team_iter W) st with
    | (Ok _, st1) => (Ok (generate_calendar (vevents st1)), st1)
    | (Raise e, st1) => (Raise e, st1)
    end.
Proof.
  unfold main, lift, get_vevents. cbn [py_iter].
  unfold mbind, run_bind, mret, run_ret.
  by destruct (for_each teams (team_iter W) st) as [[[]|] st1].
Qed.

(** C9.  A team whose fetch fails by a timeout or an HTTP error status is
    treated as a team with no events: its turn ends normally with the
    state untouched, and the run is the run without that team. *)
Theorem failed_fetch_skips_team team team_id :
  team !! "team_id" = Some team_id →
  let url := API_BASE W +:+ "/eventsnext.php?id=" +:+ py_str W team_id in
  ((∃ e, requests_get W url = Raise e)
   ∨ (∃ r, requests_get W url = Ok r
           ∧ (400 <= status_code r)%Z ∧ (status_code r < 600)%Z)) →
  (∀ st, team_iter W (JDict team) st = (Ok tt, st))
  ∧ (∀ before after,
        main W (JList (before ++ JDict team :: after)) initial
        = main W (JList (before ++ after)) initial).
Proof.
  intros Hid url Hfail.
  assert (Hfetch : ∃ e, fetch_events W team_id = Raise e).
  { unfold fetch_events. fold url. unfold mbind, result_bind.
    destruct Hfail as [[e ->]|(r & -> & Hlo & Hhi)]; [by eauto|].
    unfold raise_for_status.
    apply Z.leb_le in Hlo. apply Z.ltb_lt in Hhi. rewrite Hlo, Hhi. cbn. eauto. }
  destruct Hfetch as [e Hfetch].
  assert (Hturn : ∀ st, team_iter W (JDict team) st = (Ok tt, st)).
  { intros st. unfold team_iter. cbn [py_getitem py_get]. rewrite Hid.
    unfold lift. unfold mbind, run_bind. by rewrite Hfetch. }
  split; [done|]. intros before after.
  rewrite !main_eq, !for_each_app. cbn [for_each].
  destruct (for_each before (team_iter W) initial) as [[[]|] st1]; [|done].
  unfold mbind at 1, run_bind at 1. by rewrite Hturn.
Qed.

End Recovery.

Section Dedup.
Context (W : World).

Lemma kept_indices_spec occ j :
  j ∈ kept_indices W occ ↔ j < length occ ∧ kept W occ j = true.
Proof.
  unfold kept_indices. rewrite list_elem_of_In, List.filter_In, in_seq.
  intuition lia.
Qed.

Lemma kept_spec occ j :
  kept W occ j = true ↔
  first_occurrence W occ j = true
  ∧ ∃ team ev, occ !! j = Some (team, ev) ∧ renders W team ev = true.
Proof.
  unfold kept. rewrite andb_true_iff.
  destruct (occ !! j) as [[team ev]|]; split; intros [H1 H2]; split; try done.
  - eauto.
  - by destruct H2 as (? & ? & [= <- <-] & ?).
  - by destruct H2 as (? & ? & ? & ?).
Qed.

Lemma kept_indices_NoDup occ : NoDup (kept_indices W occ).
Proof.
  unfold kept_indices. apply NoDup_ListNoDup, List.NoDup_filter, List.seq_NoDup.
Qed.

(** Two first occurrences of one uid are one and the same occurrence. *)
Lemma first_occurrence_lt occ i j ti ei tj ej u :
  occ !! i = Some (ti, ei) → occ !! j = Some (tj, ej) →
  uid_for W ei = Ok u → uid_for W ej = Ok u →
  first_occurrence W occ j = true → ¬ i < j.
Proof.
  intros Hi Hj Hui Huj Hf Hlt. unfold first_occurrence in Hf.
  rewrite Hj, Huj in Hf. apply forallb_has_uid in Hf. apply Hf.
  exists (ti, ei). split; [|by apply has_uid_spec].
  apply list_elem_of_lookup. exists i. by rewrite lookup_take_lt.
Qed.

Lemma first_occurrence_unique occ i j ti ei tj ej u :
  occ !! i = Some (ti, ei) → occ !! j = Some (tj, ej) →
  uid_for W ei = Ok u → uid_for W ej = Ok u →
  first_occurrence W occ i = true → first_occurrence W occ j = true → i = j.
Proof.
  intros Hi Hj Hui Huj Hfi Hfj.
  pose proof (first_occurrence_lt occ i j _ _ _ _ u Hi Hj Hui Huj Hfj).
  pose proof (first_occurrence_lt occ j i _ _ _ _ u Hj Hi Huj Hui Hfi).
  lia.
Qed.

Lemma run_trace_main teams doc st :
  main W (JList teams) initial = (Ok doc, st) →
  ∃ tr, trace_inv W (fetch_order W teams) st tr.
Proof.
  intros [-> _]%main_ok. apply run_trace.
Qed.

(** C4 (amended).  The VEVENT blocks of a run are, in fetch order, the
    renderings of exactly those occurrences that are the first to derive
    their uid and that render without error; so no two blocks share a uid,
    and an occurrence that repeats an earlier uid never contributes. *)
Theorem dedup_keeps_first_rendered teams doc st :
  main W (JList teams) initial = (Ok doc, st) →
  ∃ tr,
    Forall2 (rendering W (fetch_order W teams)) tr (vevents st)
    ∧ tr.*1 = kept_indices W (fetch_order W teams)
    ∧ (∀ p q i j ti ei tj ej u,
         p ≠ q → tr.*1 !! p = Some i → tr.*1 !! q = Some j →
         fetch_order W teams !! i = Some (ti, ei) →
         fetch_order W teams !! j = Some (tj, ej) →
         uid_for W ei = Ok u → uid_for W ej ≠ Ok u)
    ∧ (∀ j, first_occurrence W (fetch_order W teams) j = false → j ∉ tr.*1).
Proof.
  intros [tr [Hseen Hix Hsort Hclk Hbl]]%run_trace_main.
  set (occ := fetch_order W teams) in *.
  exists tr. split; [done|]. split; [done|]. split.
  - intros p q i j ti ei tj ej u Hpq Hp Hq Hi Hj Hui Huj.
    rewrite Hix in Hp, Hq.
    assert (Hki : kept W occ i = true)
      by (eapply kept_indices_spec, list_elem_of_lookup_2, Hp).
    assert (Hkj : kept W occ j = true)
      by (eapply kept_indices_spec, list_elem_of_lookup_2, Hq).
    apply kept_spec in Hki as [Hfi _]. apply kept_spec in Hkj as [Hfj _].
    assert (i = j) as ->
      by exact (first_occurrence_unique occ i j _ _ _ _ u Hi Hj Hui Huj Hfi Hfj).
    apply Hpq. eapply NoDup_lookup; eauto using kept_indices_NoDup.
  - intros j Hf Hin. rewrite Hix in Hin.
    apply kept_indices_spec in Hin as [_ [Hf' _]%kept_spec]. congruence.
Qed.

(** C10.  The uid of a first occurrence is marked as seen before the event
    is rendered; when that rendering fails the uid stays marked, so no
    block of the final calendar comes from an event deriving that uid. *)
Theorem seen_before_rendered teams doc st i team ev u :
  main W (JList teams) initial = (Ok doc, st) →
  fetch_order W teams !! i = Some (team, ev) →
  uid_for W ev = Ok u →
  first_occurrence W (fetch_order W teams) i = true →
  renders W team ev = false →
  u ∈ seen_uids st
  ∧ ∃ tr,
      Forall2 (rendering W (fetch_order W teams)) tr (vevents st)
      ∧ ∀ ik team' ev',
          ik ∈ tr → fetch_order W teams !! ik.1 = Some (team', ev') →
          uid_for W ev' ≠ Ok u.
Proof.
  intros [tr [Hseen Hix Hsort Hclk Hbl]]%run_trace_main Hi Hu Hfirst Hr.
  set (occ := fetch_order W teams) in *. split.
  - apply Hseen. exists (team, ev). split; [|by apply has_uid_spec].
    by eapply list_elem_of_lookup_2.
  - exists tr. split; [done|]. intros [j k] team' ev' Hin Hj Hu'. cbn in Hj.
    assert (Hk : kept W occ j = true).
    { apply kept_indices_spec. rewrite <- Hix.
      apply list_elem_of_fmap. by exists (j, k). }
    apply kept_spec in Hk as (Hfj & t2 & e2 & Hj2 & Hr2).
    assert (j = i) as ->
      by exact (first_occurrence_unique occ j i _ _ _ _ u Hj Hi Hu' Hu Hfj Hfirst).
    congruence.
Qed.

(** C6 (amended).  The instant written as DTSTAMP is read from the clock
    inside each call that renders an event: the blocks of a run carry, in
    order, the readings of distinct calls, and they agree on DTSTAMP when
    those readings are written alike. *)
Theorem dtstamp_per_event teams doc st :
  main W (JList teams) initial = (Ok doc, st) →
  ∃ ks,
    StronglySorted lt ks
    ∧ Forall (λ k, k < clock st) ks
    ∧ Forall2 (λ k block, stamped (strftime (clock_reading W k)) block)
        ks (vevents st)
    ∧ ((∀ k, k < clock st →
             strftime (clock_reading W k) = strftime (clock_reading W 0)) →
       Forall (stamped (strftime (clock_reading W 0))) (vevents st)).
Proof.
  intros [tr [Hseen Hix Hsort Hclk Hbl]]%run_trace_main.
  assert (Hst : Forall2 (λ k block, stamped (strftime (clock_reading W k)) block)
                  tr.*2 (vevents st)).
  { apply Forall2_fmap_l. eapply Forall2_impl; [done|].
    intros [j k] block (t & e & _ & Hb). cbn in *.
    apply build_vevent_shape in Hb as (dt & d & uid & s & en & _ & _ & Hb).
    exists uid, s, en. exact Hb. }
  exists tr.*2. repeat split; try done.
  intros Hsame. clear Hsort Hix Hbl.
  induction Hst as [|k b ks bs Hkb Hrest IH]; [constructor|].
  apply Forall_cons in Hclk as [Hk Hclk]. constructor; [|by apply IH].
  rewrite <- (Hsame k Hk). done.
Qed.

End Dedup.


(** ** Examples: witnesses and counterexamples *)

Import Fixtures.
Import EdgeFixtures.

Lemma world_ok env api clk : World_ok (world env api clk).
Proof. split; cbn. intros tz n. by intros [= <-]. Qed.

Example league_week_run :
  (main league_week (JList [spurs; arsenal; chelsea]) initial).1
  = Ok (String.concat NL
      [ "BEGIN:VCALENDAR"; "VERSION:2.0"; "PRODID:-//My Sports Calendar//EN";
        "CALSCALE:GREGORIAN";
        "BEGIN:VEVENT"; "UID:English_Premier_League-2001@github.io";
        "DTSTAMP:20261104T120000Z"; "DTSTART:20260312T020000Z";
        "DTEND:20260312T040000Z"; "SUMMARY:⚽ Arsenal vs Chelsea";
        "LOCATION:Emirates Stadium"; "DESCRIPTION:English Premier League";
        "END:VEVENT";
        "BEGIN:VEVENT"; "UID:FA_Cup-2003@github.io";
        "DTSTAMP:20261104T120001Z"; "DTSTART:20260314T000000Z";
        "DTEND:20260314T020000Z"; "SUMMARY:⚽ Lions vs Tigers";
        "LOCATION:"; "DESCRIPTION:FA Cup";
        "END:VEVENT";
        "BEGIN:VEVENT"; "UID:league-2004@github.io";
        "DTSTAMP:20261104T120002Z"; "DTSTART:20260312T183000Z";
        "DTEND:20260312T200000Z"; "SUMMARY:Milan vs Arsenal";
        "LOCATION:Milan"; "DESCRIPTION:";
        "END:VEVENT";
        "END:VCALENDAR" ]).
Proof. vm_compute. reflexivity. Qed.

(** Counterexample to C1 as worded: a fixture dated 1 January 999 is
    rendered, and its DTSTART has fifteen characters. *)
Lemma dtstart_before_year_1000 :
  ¬ dtstart_in_wire_form tour arsenal jubilee.
Proof.
  intros H.
  edestruct (H initial) as (s & Hs & Hw); [vm_compute; reflexivity|].
  vm_compute in Hs. injection Hs as <-. vm_compute in Hw. discriminate Hw.
Qed.

Example jubilee_block :
  (build_vevent tour jubilee arsenal initial).1
  = Ok (String.concat NL
      [ "BEGIN:VEVENT"; "UID:league-999001@github.io";
        "DTSTAMP:20261104T120000Z"; "DTSTART:9990101T000000Z";
        "DTEND:9990101T020000Z"; "SUMMARY:⚽ Millennium Cup";
        "LOCATION:"; "DESCRIPTION:"; "END:VEVENT" ]).
Proof. vm_compute. reflexivity. Qed.

(** Witness of C1 (amended): the derby, announced for 02:00 with no offset
    and read in the fallback zone Asia/Tokyo, nine hours ahead of UTC. *)
Lemma dtstart_utc_instant_witness :
  ∃ dt s,
    make_dt tokyo_week derby = Ok dt
    ∧ instant dt = (to_seconds (Naive 2026 3 12 2 0 0 0) - 32400)%Z
    ∧ (tzinfo (Datetime (Naive 2026 3 12 2 0 0 0) None) = None →
       environ tokyo_week !! "DEFAULT_TZ" = None →
       instant dt = to_seconds (Naive 2026 3 12 2 0 0 0))
    ∧ to_utc_rfc tokyo_week dt = Ok s
    ∧ wire_form s = true
    ∧ read_instant s = Some (instant dt)
    ∧ (∀ team st block st',
         build_vevent tokyo_week derby team st = (Ok block, st') →
         ∃ uid dtstamp dtend, block_with uid dtstamp s dtend block)
    ∧ (∀ team d uid st,
         uid_for tokyo_week derby = Ok uid →
         configured_duration tokyo_week team d →
         representable (to_seconds (wall dt) + 60 * d) →
         utc_convertible (end_of dt d) → titled (fields_of derby) →
         ∃ block dtstamp dtend,
           build_vevent tokyo_week derby (JDict team) st = (Ok block, tick st)
           ∧ block_with uid dtstamp s dtend block).
Proof.
  apply (dtstart_utc_instant tokyo_week (world_ok _ _ _) (fields_of derby)
           (Datetime (Naive 2026 3 12 2 0 0 0) None) 32400).
  - apply parsed_date_time; reflexivity.
  - apply (normalized_naive tokyo_week _ (λ _, Ok 32400%Z)); reflexivity.
  - reflexivity.
  - split; [apply Z.leb_le|apply Z.ltb_lt]; vm_compute; reflexivity.
Defined.

Example derby_block_tokyo :
  build_vevent tokyo_week derby arsenal initial
  = (Ok (String.concat NL
           [ "BEGIN:VEVENT"; "UID:English_Premier_League-2001@github.io";
             "DTSTAMP:20261104T120000Z"; "DTSTART:20260311T170000Z";
             "DTEND:20260311T190000Z"; "SUMMARY:⚽ Arsenal vs Chelsea";
             "LOCATION:Emirates Stadium"; "DESCRIPTION:English Premier League";
             "END:VEVENT" ]),
     tick initial).
Proof. vm_compute. reflexivity. Qed.

Example derby_dtstart_tokyo :
  (dt ← make_dt tokyo_week derby; to_utc_rfc tokyo_week dt)
  = Ok "20260311T170000Z".
Proof. vm_compute. reflexivity. Qed.

Example away_game_dtstart :
  (dt ← make_dt league_week away_game; to_utc_rfc league_week dt)
  = Ok "20260312T183000Z".
Proof. vm_compute. reflexivity. Qed.


Example night_game_block :
  (build_vevent tour night_game arsenal initial).1
  = Ok (String.concat NL
      [ "BEGIN:VEVENT"; "UID:Club_Friendlies-2084001@github.io";
        "DTSTAMP:20261104T120000Z"; "DTSTART:20260308T063000Z";
        "DTEND:20260308T073000Z"; "SUMMARY:⚽ Red Bulls vs Arsenal";
        "LOCATION:"; "DESCRIPTION:Club Friendlies"; "END:VEVENT" ]).
Proof. vm_compute. reflexivity. Qed.


(** Witness of C3. *)
Lemma uid_for_format_witness :
  uid_for league_week derby = Ok "English_Premier_League-2001@github.io"
  ∧ UID_DOMAIN league_week = "github.io".
Proof.
  exact (uid_for_format league_week (fields_of derby) _ _
           (league_named (fields_of derby) "English Premier League"
              eq_refl eq_refl)
           (event_id_first (fields_of derby) eq_refl)).
Defined.

(** Counterexample to C4 as worded: the derby is first listed without a
    date, then with one; the first occurrence contributes nothing. *)
Lemma first_occurrence_not_rendered :
  ¬ first_occurrences_contribute replay [arsenal].
Proof.
  intros H.
  edestruct H as (tr & Hix & Hbl); [vm_compute; reflexivity|].
  cbn [vevents] in Hbl. apply Forall2_nil_inv_r in Hbl as ->.
  vm_compute in Hix. discriminate Hix.
Qed.

(** Witness of C4 (amended). *)
Lemma dedup_keeps_first_rendered_witness :
  ∃ tr,
    Forall2 (rendering replay (fetch_order replay [arsenal])) tr []
    ∧ tr.*1 = kept_indices replay (fetch_order replay [arsenal])
    ∧ (∀ p q i j ti ei tj ej u,
         p ≠ q → tr.*1 !! p = Some i → tr.*1 !! q = Some j →
         fetch_order replay [arsenal] !! i = Some (ti, ei) →
         fetch_order replay [arsenal] !! j = Some (tj, ej) →
         uid_for replay ei = Ok u → uid_for replay ej ≠ Ok u)
    ∧ (∀ j, first_occurrence replay (fetch_order replay [arsenal]) j = false →
            j ∉ tr.*1).
Proof.
  refine (dedup_keeps_first_rendered replay [arsenal] _
            (State {[ "English_Premier_League-2001@github.io" ]} [] 0) _).
  vm_compute. reflexivity.
Defined.



(** Counterexample to C6 as worded: two blocks of one run with different
    DTSTAMP values, the clock having moved between the two renderings. *)
Lemma dtstamp_differs_within_run :
  ¬ single_dtstamp league_week [arsenal].
Proof.
  intros H.
  edestruct H as (stamp & Hst); [vm_compute; reflexivity|].
  cbn [vevents] in Hst.
  apply Forall_cons in Hst as [H1 Hst]. apply Forall_cons in Hst as [H2 _].
  vm_compute in H1, H2. congruence.
Qed.

(** Witness of C6 (amended). *)
Lemma dtstamp_per_event_witness :
  ∃ ks,
    StronglySorted lt ks
    ∧ Forall (λ k, k < clock (main quick_week (JList [arsenal]) initial).2) ks
    ∧ Forall2 (λ k block, stamped (strftime (clock_reading quick_week k)) block)
        ks (vevents (main quick_week (JList [arsenal]) initial).2)
    ∧ ((∀ k, k < clock (main quick_week (JList [arsenal]) initial).2 →
             strftime (clock_reading quick_week k)
             = strftime (clock_reading quick_week 0)) →
       Forall (stamped (strftime (clock_reading quick_week 0)))
         (vevents (main quick_week (JList [arsenal]) initial).2)).
Proof.
  eapply (dtstamp_per_event quick_week [arsenal] _
            (main quick_week (JList [arsenal]) initial).2).
  vm_compute. reflexivity.
Defined.

(** Counterexample to C7 as worded: a fixture with a date and an
    identifier but neither a title nor team names passes the normalizer
    and the identity filter, and rendering it raises [TypeError]. *)
Lemma untitled_event_raises :
  ¬ formatter_never_raises friendlies arsenal untitled.
Proof.
  intros H.
  specialize (H "FA_Cup-2005@github.io" initial eq_refl eq_refl).
  assert (Hnew : "FA_Cup-2005@github.io" ∉ seen_uids initial)
    by apply not_elem_of_empty.
  apply H in Hnew. vm_compute in Hnew. discriminate Hnew.
Qed.

(** Witness of C7 (amended). *)
Lemma build_vevent_succeeds_witness :
  ∃ block,
    build_vevent league_week derby arsenal initial = (Ok block, tick initial).
Proof.
  refine (build_vevent_succeeds league_week (fields_of derby) (fields_of arsenal)
            (Datetime (Naive 2026 3 12 2 0 0 0) (Some (λ _, 0%Z)))
            "English_Premier_League-2001@github.io" 120 _ _ _ _ _ _ _ initial).
  - vm_compute. reflexivity.
  - vm_compute. reflexivity.
  - apply duration_default. reflexivity.
  - split; [reflexivity|].
    split; [apply Z.leb_le|apply Z.ltb_lt]; vm_compute; reflexivity.
  - split; [apply Z.leb_le|apply Z.ltb_lt]; vm_compute; reflexivity.
  - split; [reflexivity|].
    split; [apply Z.leb_le|apply Z.ltb_lt]; vm_compute; reflexivity.
  - left. reflexivity.
Defined.

(** An offset of 25 hours passes the normalizer and is refused when the
    value is taken to UTC. *)
Example far_offset_raises :
  is_ok (make_dt tour far_offset) = true
  ∧ (build_vevent tour far_offset arsenal initial).1 = Raise offset_out_of_range.
Proof. split; vm_compute; reflexivity. Qed.

(** Counterexample to C8 as worded: a cup tie, the derby listed without a
    date, and the derby.  The undated listing leaves its uid behind, the
    derby is dropped as a repeat, and one block is left where two are
    without the undated listing. *)
Lemma undated_listing_drops_sibling :
  ¬ siblings_unaffected replay arsenal (fields_of derby_undated).
Proof.
  intros H. specialize (H eq_refl [cup_tie] [derby] initial).
  vm_compute in H. discriminate H.
Qed.

Example undated_listing_run :
  length (vevents (for_each [cup_tie; derby_undated; derby]
                     (event_iter replay arsenal) initial).2) = 1
  ∧ length (vevents (for_each [cup_tie; derby]
                       (event_iter replay arsenal) initial).2) = 2.
Proof. split; vm_compute; reflexivity. Qed.

(** Witness of C8 (amended): a valid fixture, one without a date, and
    another valid fixture, of three different uids, leave two blocks; and
    the derby listed without a date and then with one leaves none. *)
Lemma missing_date_skips_event_witness :
  (∃ b1 b3 st',
     for_each [derby; undated; cup_tie] (event_iter league_week arsenal) initial
     = (Ok tt, st')
     ∧ vevents st' = vevents initial ++ [b1; b3])
  ∧ (∃ st',
       for_each [derby_undated; derby] (event_iter replay arsenal) initial
       = (Ok tt, st')
       ∧ vevents st' = vevents initial ∧ clock st' = clock initial).
Proof.
  split.
  - apply (proj2 (proj2 (proj2 (proj2
                    (missing_date_skips_event league_week (fields_of undated)
                       eq_refl))))
             arsenal derby cup_tie
             "English_Premier_League-2001@github.io" "FA_Cup-2003@github.io").
    + vm_compute. reflexivity.
    + vm_compute. reflexivity.
    + discriminate.
    + vm_compute. discriminate.
    + apply not_elem_of_empty.
    + apply not_elem_of_empty.
    + vm_compute. reflexivity.
    + vm_compute. reflexivity.
  - apply (proj1 (proj2 (proj2 (proj2
                    (missing_date_skips_event replay (fields_of derby_undated)
                       eq_refl))))
             arsenal derby "English_Premier_League-2001@github.io").
    + vm_compute. reflexivity.
    + vm_compute. reflexivity.
Defined.

(** Witness of C9, for a timeout and for an HTTP error status. *)
Lemma failed_fetch_skips_team_witness :
  ((∀ st, team_iter league_week spurs st = (Ok tt, st))
   ∧ (∀ before after,
        main league_week (JList (before ++ spurs :: after)) initial
        = main league_week (JList (before ++ after)) initial))
  ∧ ((∀ st, team_iter league_week_503 spurs st = (Ok tt, st))
     ∧ (∀ before after,
          main league_week_503 (JList (before ++ spurs :: after)) initial
          = main league_week_503 (JList (before ++ after)) initial)).
Proof.
  split.
  - apply (failed_fetch_skips_team league_week (fields_of spurs) (JStr "133616")
             eq_refl).
    left. exists RequestException. vm_compute. reflexivity.
  - apply (failed_fetch_skips_team league_week_503 (fields_of spurs)
             (JStr "133616") eq_refl).
    right. exists (Response 503 (Raise JSONDecodeError)).
    split; [vm_compute; reflexivity|]. split; [apply Z.leb_le|apply Z.ltb_lt]; reflexivity.
Defined.

(** Witness of C10: the undated derby marks the uid, and the dated derby
    that follows is dropped. *)
Lemma seen_before_rendered_witness :
  "English_Premier_League-2001@github.io"
    ∈ seen_uids (main replay (JList [arsenal]) initial).2
  ∧ ∃ tr,
      Forall2 (rendering replay (fetch_order replay [arsenal])) tr
        (vevents (main replay (JList [arsenal]) initial).2)
      ∧ ∀ ik team' ev',
          ik ∈ tr → fetch_order replay [arsenal] !! ik.1 = Some (team', ev') →
          uid_for replay ev' ≠ Ok "English_Premier_League-2001@github.io".
Proof.
  eapply (seen_before_rendered replay [arsenal] _
            (main replay (JList [arsenal]) initial).2 0 arsenal derby_undated).
  - vm_compute. reflexivity.
  - vm_compute. reflexivity.
  - vm_compute. reflexivity.
  - vm_compute. reflexivity.
  - vm_compute. reflexivity.
Defined.

Example replay_run :
  (main replay (JList [arsenal]) initial).1
  = Ok (String.concat NL
      [ "BEGIN:VCALENDAR"; "VERSION:2.0"; "PRODID:-//My Sports Calendar//EN";
        "CALSCALE:GREGORIAN"; "END:VCALENDAR" ]).
Proof. vm_compute. reflexivity. Qed.

(** ** Further properties of the script *)

(** *** Text of the document *)

Lemma lines_nonempty s : lines s ≠ [].
Proof.
  destruct s as [|c r]; cbn; [done|].
  destruct (Ascii.eqb c "010"); [done|]. by destruct (lines r).
Qed.

Lemma lines_app_NL x y : lines (x +:+ NL +:+ y) = lines x ++ lines y.
Proof.
  induction x as [|c r IH]; [reflexivity|].
  change (String c r +:+ NL +:+ y) with (String c (r +:+ NL +:+ y)).
  cbn [lines]. rewrite IH. destruct (Ascii.eqb c "010"); [done|].
  pose proof (lines_nonempty r). by destruct (lines r).
Qed.

Lemma lines_concat x l :
  lines (String.concat NL (x :: l)) = (x :: l) ≫= lines.
Proof.
  revert x. induction l as [|y l IH]; intros x.
  - cbn. by rewrite app_nil_r.
  - change (String.concat NL (x :: y :: l))
      with (x +:+ NL +:+ String.concat NL (y :: l)).
    rewrite lines_app_NL, IH. reflexivity.
Qed.

Lemma lines_one_line s : one_line s = true → lines s = [s].
Proof.
  unfold one_line. induction s as [|c r IH]; [reflexivity|].
  cbn [has_char lines]. rewrite negb_orb, andb_true_iff.
  intros [Hc Hr]. apply negb_true_iff in Hc. rewrite Hc, (IH Hr). reflexivity.
Qed.

Lemma one_line_append a b :
  one_line a = true → one_line b = true → one_line (a +:+ b) = true.
Proof.
  unfold one_line. induction a as [|c r IH]; [done|].
  change (String c r +:+ b) with (String c (r +:+ b)). cbn [has_char]. rewrite !negb_orb, !andb_true_iff.
  intros [Hc Hr] Hb. split; [done|]. by apply IH.
Qed.

(** X9.  Split at its newlines, the calendar document is the four header
    lines, then the lines of the blocks in order, then the footer line. *)
Theorem generate_calendar_lines all_vevents :
  lines (generate_calendar all_vevents)
  = calendar_header ++ (all_vevents ≫= lines) ++ calendar_footer.
Proof.
  unfold generate_calendar. cbn [app].
  rewrite lines_concat.
  change (?a :: ?b :: ?c :: ?d :: all_vevents ++ ?f)
    with ([a; b; c; d] ++ all_vevents ++ f).
  rewrite !bind_app. reflexivity.
Qed.

(** X10.  When none of the seven values breaks the line, a block has its
    nine lines and each value reads back from the line of its key. *)
Theorem block_fields_read_back
    uid dtstamp dtstart dtend summary location description :
  one_line uid = true → one_line dtstamp = true → one_line dtstart = true →
  one_line dtend = true → one_line summary = true →
  one_line location = true → one_line description = true →
  let block := String.concat NL
                 (vevent_lines uid dtstamp dtstart dtend summary location
                    description) in
  lines block
  = vevent_lines uid dtstamp dtstart dtend summary location description
  ∧ line_value "UID:" block = Some uid
  ∧ line_value "DTSTAMP:" block = Some dtstamp
  ∧ line_value "DTSTART:" block = Some dtstart
  ∧ line_value "DTEND:" block = Some dtend
  ∧ line_value "SUMMARY:" block = Some summary
  ∧ line_value "LOCATION:" block = Some location
  ∧ line_value "DESCRIPTION:" block = Some description.
Proof.
  intros H1 H2 H3 H4 H5 H6 H7 block.
  assert (Hl : lines block
               = vevent_lines uid dtstamp dtstart dtend summary location
                   description).
  { subst block. unfold vevent_lines. rewrite lines_concat.
    cbn [mbind list_bind app].
    rewrite !lines_one_line
      by (reflexivity || (apply one_line_append; [reflexivity|assumption])).
    reflexivity. }
  split; [exact Hl|].
  unfold line_value. rewrite Hl. unfold vevent_lines.
  repeat split; reflexivity.
Qed.

Section More.
Context (W : World).

(** *** Identity *)

(** X11.  [uid_for] succeeds exactly on a dict whose league name is unusable
    (missing, null, empty, ...) or a string; a number or a list under
    [strLeague] makes it raise. *)
Theorem uid_for_ok_iff event :
  is_ok (uid_for W event) = true ↔
  ∃ kvs, event = JDict kvs
    ∧ (absent kvs "strLeague" ∨ ∃ s, field kvs "strLeague" = JStr s).
Proof.
  split.
  - destruct event as [| | | | |kvs]; try discriminate.
    unfold uid_for. cbn [py_get]. unfold mbind, result_bind.
    fold (field kvs "strLeague"). unfold py_or, absent.
    intros H. exists kvs. split; [done|].
    destruct (truthy (field kvs "strLeague")) eqn:Ht; [right|by left].
    destruct (field kvs "strLeague"); try discriminate. eauto.
  - intros (kvs & -> & H).
    unfold uid_for. cbn [py_get]. unfold mbind, result_bind.
    fold (field kvs "strLeague"). unfold py_or.
    destruct H as [Ha|[s Hs]].
    + rewrite Ha. cbn. by destruct (truthy _).
    + rewrite Hs. destruct (truthy (JStr s)); cbn; by destruct (truthy _).
Qed.

(** X12.  The uid depends on [strLeague], [idEvent] and [id] only: setting
    any other field of the event leaves it as it was. *)
Theorem uid_for_frame kvs k v :
  k ≠ "strLeague" → k ≠ "idEvent" → k ≠ "id" →
  uid_for W (JDict (<[k:=v]> kvs)) = uid_for W (JDict kvs).
Proof.
  intros H1 H2 H3. unfold uid_for. cbn [py_get].
  by rewrite !lookup_insert_ne.
Qed.

Lemma replace_char_no_space s : has_char " " (replace_char " " "_" s) = false.
Proof.
  induction s as [|c r IH]; [reflexivity|].
  cbn [replace_char has_char]. rewrite IH, orb_false_r.
  destruct (Ascii.eqb c " ") eqn:Hc; [reflexivity|exact Hc].
Qed.

(** X13.  A uid is a league part free of spaces, a hyphen, the text of an
    identifier value, an at sign and the configured domain. *)
Theorem uid_shape event uid :
  uid_for W event = Ok uid →
  ∃ league eid,
    uid = league +:+ "-" +:+ py_str W eid +:+ "@" +:+ UID_DOMAIN W
    ∧ has_char " " league = false.
Proof.
  destruct event as [| | | | |kvs]; try discriminate.
  unfold uid_for. cbn [py_get]. unfold mbind, result_bind.
  destruct (py_or _ (JStr "league")) as [| | |s| |]; try discriminate.
  cbn [py_replace_space].
  destruct (if truthy _ then _ else _) as [eid|]; [|discriminate].
  intros [= <-]. eexists _, eid. split; [reflexivity|].
  apply replace_char_no_space.
Qed.

(** *** Normalisation *)

(** X14.  What [make_dt] returns is aware, keeps the wall-clock fields the
    parser gave, and keeps the parser's offset when there was one. *)
Theorem make_dt_aware_keeps_wall event dt :
  make_dt W event = Ok dt →
  ∃ raw parsed,
    parse W raw = Ok parsed
    ∧ wall dt = wall parsed
    ∧ is_Some (tzinfo dt)
    ∧ (is_Some (tzinfo parsed) → dt = parsed).
Proof.
  unfold make_dt. unfold mbind, result_bind.
  destruct (py_get event "dateEvent") as [d|]; [|discriminate].
  destruct (py_get event "strTime") as [t|]; [|discriminate].
  destruct (negb (truthy d)); [discriminate|].
  match goal with |- context [parse W ?r] => set (raw := r) end.
  destruct (parse W raw) as [[n [o|]]|] eqn:Hp; [| |discriminate].
  - intros [= <-]. exists raw, (Datetime n (Some o)). cbn. eauto.
  - cbn. destruct (pytz_timezone W (DEFAULT_TZ W)) as [tz|]; [|discriminate].
    destruct (tz n) as [o|]; [|discriminate].
    intros [= <-]. exists raw, (Datetime n None). cbn.
    repeat split; eauto. by intros [? [=]].
Qed.

(** X15.  A parsed value that carries an offset is returned as it is, whatever
    [DEFAULT_TZ] names; one that carries none fails with the error of the
    zone lookup when the name is unknown. *)
Theorem make_dt_fallback_zone kvs parsed :
  parsed_as W kvs parsed →
  (is_Some (tzinfo parsed) → make_dt W (JDict kvs) = Ok parsed)
  ∧ (∀ e, tzinfo parsed = None → pytz_timezone W (DEFAULT_TZ W) = Raise e →
          make_dt W (JDict kvs) = Raise e).
Proof.
  intros Hp.
  assert (Hm : make_dt W (JDict kvs) =
               match tzinfo parsed with
               | None => tz ← pytz_timezone W (DEFAULT_TZ W);
                         o ← tz (wall parsed);
                         Ok (Datetime (wall parsed) (Some (λ _, o)))
               | Some _ => Ok parsed
               end).
  { unfold make_dt. cbn [py_get]. unfold mbind at 1 2, result_bind at 1 2.
    fold (field kvs "dateEvent") (field kvs "strTime").
    destruct Hp as [dt Hd Ht Hparse|d dt Hd Ht Hs Hparse].
    - rewrite Hd, Ht. cbn [negb parse].
      unfold mbind at 1, result_bind at 1. by rewrite Hparse.
    - rewrite Hd, Ht, Hs. cbn [negb parse].
      unfold mbind at 1, result_bind at 1. by rewrite Hparse. }
  rewrite Hm. split.
  - by intros [o ->].
  - intros e -> ->. reflexivity.
Qed.

(** [to_utc_rfc] is a function of the instant alone. *)
Lemma strftime_of_seconds t us us' :
  strftime (of_seconds t us) = strftime (of_seconds t us').
Proof. unfold of_seconds. by destruct (ord2ymd _) as [[y m] d]. Qed.

(** A year before 1000 leaves the text short of the wire form. *)
Lemma wire_form_short n : (year n < 1000)%Z → wire_form (strftime n) = false.
Proof.
  intros Hy. unfold wire_form, strftime, decimal_year, pad2.
  rewrite String.list_ascii_of_string_of_list_ascii.
  destruct (Z.ltb_spec (year n) 10); [reflexivity|].
  destruct (Z.ltb_spec (year n) 100); [reflexivity|].
  destruct (Z.ltb_spec (year n) 1000); [reflexivity|lia].
Qed.

(** X16.  Two aware values whose offsets are within 24 hours are written
    alike exactly when they denote the same UTC instant; shown for a first
    value of the years 1000 to 9999. *)
Theorem to_utc_rfc_same_instant dt1 dt2 s1 :
  is_Some (tzinfo dt1) → is_Some (tzinfo dt2) →
  valid_offset (utc_offset dt2) = true →
  four_digit_year (instant dt1) →
  to_utc_rfc W dt1 = Ok s1 →
  (to_utc_rfc W dt2 = Ok s1 ↔ instant dt1 = instant dt2).
Proof.
  intros H1 H2 Ho2 Hy1 Hs1.
  apply to_utc_rfc_inv in Hs1 as [[Ho1 Hr1] ->]; [|done].
  destruct (strftime_of_seconds_spec (instant dt1) (microsecond (wall dt1)) Hy1)
    as [Hw1 Hi1].
  split.
  - intros Hs2. apply to_utc_rfc_inv in Hs2 as [[_ Hr2] Heq]; [|done].
    rewrite (strftime_of_seconds _ _ 0) in Hw1, Hi1, Heq.
    rewrite (strftime_of_seconds (instant dt2) _ 0) in Heq.
    destruct (of_seconds_spec (instant dt2) 0) as (Ht2 & _ & Hv2);
      [unfold representable in Hr2; lia|].
    assert (Hv : valid_naive (of_seconds (instant dt2) 0) = true).
    { apply Hv2; [|lia]. unfold representable, MAXORDINAL in *. lia. }
    destruct (Z.lt_ge_cases (year (of_seconds (instant dt2) 0)) 1000) as [Hlt|Hge].
    + apply wire_form_short in Hlt. congruence.
    + pose proof (read_instant_strftime _ Hv Hge) as Hi2.
      revert Hi1 Hi2 Heq.
      generalize (strftime (of_seconds (instant dt1) 0)).
      generalize (strftime (of_seconds (instant dt2) 0)).
      intros a b Hi1 Hi2 ->. congruence.
  - intros Heq. rewrite to_utc_rfc_eq by done. rewrite Ho2, <- Heq.
    apply range_representable in Hr1. rewrite Hr1.
    f_equal. apply strftime_of_seconds.
Qed.

(** X17.  Writing an aware value succeeds exactly when its offset is within
    24 hours and its UTC instant falls within years 1 to 9999.  It fails
    with [ValueError] for the offset, else with [OverflowError] for the
    instant. *)
Theorem to_utc_rfc_range dt :
  is_Some (tzinfo dt) →
  (is_ok (to_utc_rfc W dt) = true ↔ utc_convertible dt)
  ∧ (valid_offset (utc_offset dt) = false →
     to_utc_rfc W dt = Raise offset_out_of_range)
  ∧ (valid_offset (utc_offset dt) = true → ¬ representable (instant dt) →
     to_utc_rfc W dt = Raise OverflowError).
Proof.
  intros Htz. rewrite (to_utc_rfc_eq W dt Htz). unfold utc_convertible.
  pose proof (range_representable (instant dt)) as Hr.
  destruct (valid_offset _); destruct (_ && _); cbn;
    intuition (try discriminate; try done).
Qed.

End More.

Section MoreRun.
Context (W : World).

(** *** Fetching *)

(** X1.  Given a response, [fetch_events] succeeds exactly when the status
    passes and the body is a JSON object; what it then returns is the
    empty list or a value that counts as true, never [None]. *)
Theorem fetch_events_ok_iff team_id r :
  requests_get W (API_BASE W +:+ "/eventsnext.php?id=" +:+ py_str W team_id)
  = Ok r →
  (is_ok (fetch_events W team_id) = true ↔
   status_passes r ∧ ∃ body, json_body r = Ok (JDict body))
  ∧ (∀ events, fetch_events W team_id = Ok events →
               events = JList [] ∨ truthy events = true).
Proof.
  intros Hr. unfold fetch_events, status_passes. rewrite Hr.
  unfold mbind, result_bind, raise_for_status.
  destruct ((400 <=? status_code r)%Z && (status_code r <? 600)%Z) eqn:Hs.
  - apply andb_prop in Hs as [H1%Z.leb_le H2%Z.ltb_lt].
    split; [|discriminate]. split; [discriminate|]. intros [Hn _]. lia.
  - assert (Hpass : ¬ (400 <= status_code r < 600)%Z).
    { intros [H1%Z.leb_le H2%Z.ltb_lt]. by rewrite H1, H2 in Hs. }
    destruct (json_body r) as [[| | | | |body]|e]; cbn [py_get].
    1-5, 7: split; [split; [discriminate|by intros [_ [? [=]]]]|discriminate].
    split; [split; eauto|].
    intros events [= <-]. unfold py_or.
    destruct (truthy (default JNull (body !! "events"))) eqn:Ht; auto.
Qed.

(** X2.  A team for which the API reports no events (an object whose
    [events] is missing, null or empty) contributes nothing, and its turn
    ends normally. *)
Theorem no_events_no_change team team_id r body :
  team !! "team_id" = Some team_id →
  requests_get W (API_BASE W +:+ "/eventsnext.php?id=" +:+ py_str W team_id)
  = Ok r →
  status_passes r → json_body r = Ok (JDict body) → absent body "events" →
  fetch_events W team_id = Ok (JList [])
  ∧ ∀ st, team_iter W (JDict team) st = (Ok tt, st).
Proof.
  intros Hid Hr Hs Hb Ha.
  assert (Hf : fetch_events W team_id = Ok (JList [])).
  { unfold fetch_events, status_passes in *. rewrite Hr.
    unfold mbind, result_bind, raise_for_status.
    destruct ((400 <=? status_code r)%Z && (status_code r <? 600)%Z) eqn:E.
    - apply andb_prop in E as [H1%Z.leb_le H2%Z.ltb_lt]. lia.
    - rewrite Hb. cbn [py_get]. fold (field body "events").
      unfold py_or. by rewrite Ha. }
  split; [done|]. intros st.
  unfold team_iter. cbn [py_getitem py_get]. rewrite Hid.
  unfold lift. unfold mbind, run_bind. by rewrite Hf.
Qed.

(** *** The run *)

Lemma team_iter_fetch_fails team st :
  fetch_fails W team → team_iter W team st = (Ok tt, st).
Proof.
  intros (kvs & tid & e & -> & Hid & Hf).
  unfold team_iter. cbn [py_getitem py_get]. rewrite Hid.
  unfold lift. unfold mbind, run_bind. by rewrite Hf.
Qed.

(** X3.  When every team's request fails (and when there is no team at
    all) the run still completes, and the document is the header and the
    footer with no block between them. *)
Theorem all_teams_failed_empty_calendar teams :
  Forall (fetch_fails W) teams →
  main W (JList teams) initial
  = (Ok (String.concat NL (calendar_header ++ calendar_footer)), initial).
Proof.
  intros Hall. rewrite main_eq.
  assert (Hrun : ∀ st, for_each teams (team_iter W) st = (Ok tt, st)).
  { induction Hall as [|team teams Hteam _ IH]; intros st; [reflexivity|].
    cbn [for_each]. unfold mbind, run_bind.
    by rewrite (team_iter_fetch_fails team st Hteam). }
  rewrite Hrun. reflexivity.
Qed.

(** X4.  A team entry without [team_id] aborts the run with [KeyError]: the
    subscript stands outside every [try], so nothing is written, whatever
    the teams before it produced. *)
Theorem missing_team_id_aborts before team after st1 :
  for_each before (team_iter W) initial = (Ok tt, st1) →
  team !! "team_id" = None →
  main W (JList (before ++ JDict team :: after)) initial
  = (Raise (KeyError "team_id"), st1).
Proof.
  intros Hbefore Hid. rewrite main_eq, for_each_app, Hbefore.
  cbn [for_each]. unfold mbind at 1, run_bind at 1.
  unfold team_iter. cbn [py_getitem]. rewrite Hid.
  unfold lift. unfold mbind, run_bind. reflexivity.
Qed.

(** One turn of the inner loop never aborts and only adds. *)
Lemma event_step_grows team st ev :
  seen_uids st ⊆ seen_uids (event_step W team st ev)
  ∧ (vevents (event_step W team st ev) = vevents st
     ∨ ∃ block, vevents (event_step W team st ev) = vevents st ++ [block])
  ∧ clock st ≤ clock (event_step W team st ev) ≤ S (clock st).
Proof.
  unfold event_step.
  destruct (uid_for W ev) as [u|]; [|by auto].
  destruct (bool_decide (u ∈ seen_uids st)); [by auto|].
  destruct (vevent_times W ev team) as [[[[? ?] s] e]|]; cbn.
  - destruct (vevent_text W ev team _ s e) as [b|]; cbn.
    + split; [apply union_subseteq_r|]. split; [eauto|lia].
    + split; [apply union_subseteq_r|]. split; [auto|lia].
  - split; [apply union_subseteq_r|]. split; [auto|lia].
Qed.

(** X5.  Whatever the event, its turn of the inner loop ends normally; it
    never forgets a uid, never removes or alters a block already rendered,
    and adds at most one block, at the end. *)
Theorem event_turn_only_adds team ev st :
  ∃ st',
    event_iter W team ev st = (Ok tt, st')
    ∧ seen_uids st ⊆ seen_uids st'
    ∧ (vevents st' = vevents st ∨ ∃ block, vevents st' = vevents st ++ [block]).
Proof.
  exists (event_step W team st ev). rewrite event_iter_eq.
  destruct (event_step_grows team st ev) as (? & ? & _). auto.
Qed.

Lemma event_step_marks team st ev u :
  uid_for W ev = Ok u → u ∈ seen_uids (event_step W team st ev).
Proof.
  intros Hu. unfold event_step. rewrite Hu.
  destruct (bool_decide (u ∈ seen_uids st)) eqn:Hd.
  - by apply bool_decide_eq_true in Hd.
  - destruct (vevent_times W ev team) as [[[[? ?] s] e]|]; cbn.
    + destruct (vevent_text W ev team _ s e); cbn;
        apply elem_of_union_l, elem_of_singleton; reflexivity.
    + apply elem_of_union_l, elem_of_singleton; reflexivity.
Qed.

Lemma fold_event_step_seen team evs st :
  seen_uids st ⊆ seen_uids (fold_left (event_step W team) evs st).
Proof.
  revert st. induction evs as [|ev evs IH]; intros st; [done|].
  cbn [fold_left]. etrans; [|apply IH].
  apply event_step_grows.
Qed.

Lemma fold_event_step_marks team evs st ev u :
  ev ∈ evs → uid_for W ev = Ok u →
  u ∈ seen_uids (fold_left (event_step W team) evs st).
Proof.
  revert st. induction evs as [|ev' evs IH]; intros st Hin Hu.
  - by apply elem_of_nil in Hin.
  - cbn [fold_left]. apply elem_of_cons in Hin as [->|Hin].
    + apply fold_event_step_seen. by apply event_step_marks.
    + by apply IH.
Qed.

Lemma fold_event_step_seen_all team evs st :
  (∀ ev u, ev ∈ evs → uid_for W ev = Ok u → u ∈ seen_uids st) →
  fold_left (event_step W team) evs st = st.
Proof.
  induction evs as [|ev evs IH]; intros Hall; [done|].
  cbn [fold_left].
  assert (Hstep : event_step W team st ev = st).
  { unfold event_step. destruct (uid_for W ev) as [u|] eqn:Hu; [|done].
    rewrite bool_decide_eq_true_2; [done|].
    eapply Hall; [apply list_elem_of_here|done]. }
  rewrite Hstep. apply IH. intros ev' u Hin. apply Hall. by apply list_elem_of_further.
Qed.

(** X6.  A team's turn is idempotent: run again on the state it left, with
    the same answer from the API, it changes nothing, every uid of its
    events being already seen. *)
Theorem team_turn_idempotent team st st1 :
  team_iter W team st = (Ok tt, st1) →
  team_iter W team st1 = (Ok tt, st1).
Proof.
  unfold team_iter, lift. unfold mbind, run_bind, mret, run_ret.
  destruct (py_getitem team "team_id") as [tid|]; [|discriminate].
  destruct (py_get team "name"); [|discriminate].
  destruct (fetch_events W tid) as [events|]; [|by intros [= <-]].
  destruct (truthy events); cbn [negb]; [|by intros [= <-]].
  destruct (py_iter events) as [evs|]; [|discriminate].
  rewrite !for_each_event_iter. intros [= <-]. f_equal.
  apply fold_event_step_seen_all. intros ev u Hin Hu.
  by eapply fold_event_step_marks.
Qed.

(** The counters of a run. *)
Lemma event_step_counts team st ev :
  length (vevents st) ≤ clock st ≤ size (seen_uids st) →
  length (vevents (event_step W team st ev))
  ≤ clock (event_step W team st ev)
  ≤ size (seen_uids (event_step W team st ev)).
Proof.
  intros Hst. unfold event_step.
  destruct (uid_for W ev) as [u|]; [|done].
  destruct (bool_decide (u ∈ seen_uids st)) eqn:Hd; [done|].
  apply bool_decide_eq_false in Hd.
  assert (Hsize : size ({[u]} ∪ seen_uids st) = S (size (seen_uids st))).
  { rewrite size_union by (by apply disjoint_singleton_l).
    by rewrite size_singleton. }
  destruct (vevent_times W ev team) as [[[[? ?] s] e]|]; cbn.
  - destruct (vevent_text W ev team _ s e) as [b|]; cbn;
      rewrite Hsize, ?length_app; cbn; lia.
  - rewrite Hsize. lia.
Qed.

(** X7.  At the end of a run there are no more blocks than clock readings,
    no more clock readings than uids seen, and no more blocks than events
    fetched. *)
Theorem run_counts teams doc st :
  main W (JList teams) initial = (Ok doc, st) →
  length (vevents st) ≤ clock st
  ∧ clock st ≤ size (seen_uids st)
  ∧ length (vevents st) ≤ length (fetch_order W teams).
Proof.
  intros Hmain. pose proof Hmain as [-> _]%main_ok.
  assert (Hcount : ∀ occ st0,
            length (vevents st0) ≤ clock st0 ≤ size (seen_uids st0) →
            length (vevents (fold_left (occurrence_step W) occ st0))
            ≤ clock (fold_left (occurrence_step W) occ st0)
            ≤ size (seen_uids (fold_left (occurrence_step W) occ st0))).
  { induction occ as [|[t e] occ IH]; intros st0 H0; [done|].
    cbn [fold_left]. apply IH. by apply event_step_counts. }
  assert (Hlen : ∀ occ st0,
            length (vevents (fold_left (occurrence_step W) occ st0))
            ≤ length (vevents st0) + length occ).
  { induction occ as [|[t e] occ IH]; intros st0; cbn [fold_left length]; [lia|].
    etrans; [apply IH|]. unfold occurrence_step. cbn [fst snd].
    destruct (event_step_grows t st0 e) as (_ & [->|[b ->]] & _);
      rewrite ?length_app; cbn; lia. }
  specialize (Hcount (fetch_order W teams) initial).
  specialize (Hlen (fetch_order W teams) initial).
  cbn in Hcount, Hlen. rewrite size_empty in Hcount. lia.
Qed.

(** X8.  A team whose [duration_minutes] is there but cannot be converted
    by [int] (null, a list, a text that is no number) renders none of its
    events: each fails before the clock is read, and no block is added. *)
Theorem unusable_duration_renders_nothing team v e :
  team !! "duration_minutes" = Some v → py_int W v = Raise e →
  ∀ ev st,
    (∃ e', build_vevent W ev (JDict team) st = (Raise e', st))
    ∧ vevents (event_iter W (JDict team) ev st).2 = vevents st.
Proof.
  intros Hv Hint ev st.
  assert (Ht : ∃ e', vevent_times W ev (JDict team) = Raise e').
  { unfold vevent_times. cbn [py_get_default]. rewrite Hv.
    change (default (JInt 120) (Some v)) with v.
    unfold mbind, result_bind.
    destruct (make_dt W ev); [rewrite Hint|]; eauto. }
  destruct Ht as [e' Ht]. split.
  - exists e'. by rewrite build_vevent_eq, Ht.
  - rewrite event_iter_eq. cbn [snd]. unfold event_step.
    destruct (uid_for W ev) as [u|]; [|done].
    destruct (bool_decide _); [done|]. by rewrite Ht.
Qed.

End MoreRun.

Section Collisions.
Context (W : World).

(** X18.  Two events that both lack an identifier and report the same
    league derive the same uid, however different they are otherwise; once
    the first has had its turn, the turn of the second changes nothing. *)
Theorem anonymous_events_collide kvs1 kvs2 league :
  league_part kvs1 league → league_part kvs2 league →
  absent kvs1 "idEvent" → field kvs1 "id" = JNull →
  absent kvs2 "idEvent" → field kvs2 "id" = JNull →
  uid_for W (JDict kvs1) = uid_for W (JDict kvs2)
  ∧ ∀ team1 team2 st,
      event_step W team2 (event_step W team1 st (JDict kvs1)) (JDict kvs2)
      = event_step W team1 st (JDict kvs1).
Proof.
  intros Hl1 Hl2 Ha1 Hi1 Ha2 Hi2.
  assert (Hu : ∀ kvs, league_part kvs league → absent kvs "idEvent" →
                 field kvs "id" = JNull →
                 uid_for W (JDict kvs)
                 = Ok (league +:+ "-" +:+ "None" +:+ "@" +:+ UID_DOMAIN W)).
  { intros kvs Hl Ha Hi. unfold uid_for. cbn [py_get].
    unfold mbind, result_bind.
    fold (field kvs "strLeague") (field kvs "idEvent") (field kvs "id").
    by rewrite (league_part_spec _ _ Hl), Ha, Hi. }
  split; [by rewrite !Hu|]. intros team1 team2 st.
  eapply event_step_repeat; [by apply Hu|].
  apply event_step_marks. by apply Hu.
Qed.

End Collisions.

(** ** Examples for the further properties *)

Import MoreFixtures.

(** Witness of X1. *)
Lemma fetch_events_ok_iff_witness :
  (is_ok (fetch_events league_week (JStr "133604")) = true ↔
   status_passes arsenal_response
   ∧ ∃ body, json_body arsenal_response = Ok (JDict body))
  ∧ (∀ events, fetch_events league_week (JStr "133604") = Ok events →
               events = JList [] ∨ truthy events = true).
Proof.
  apply (fetch_events_ok_iff league_week (JStr "133604") arsenal_response).
  vm_compute. reflexivity.
Defined.

(** Witness of X2. *)
Lemma no_events_no_change_witness :
  fetch_events off_season (JStr "133604") = Ok (JList [])
  ∧ ∀ st, team_iter off_season arsenal st = (Ok tt, st).
Proof.
  apply (no_events_no_change off_season (fields_of arsenal) (JStr "133604")
           off_season_response (<["events" := JNull]> ∅)).
  - reflexivity.
  - vm_compute. reflexivity.
  - unfold status_passes. cbn. lia.
  - reflexivity.
  - reflexivity.
Defined.

(** Witness of X3. *)
Lemma all_teams_failed_empty_calendar_witness :
  main outage (JList [spurs; arsenal]) initial
  = (Ok (String.concat NL (calendar_header ++ calendar_footer)), initial).
Proof.
  apply (all_teams_failed_empty_calendar outage [spurs; arsenal]).
  repeat constructor.
  - exists (fields_of spurs), (JStr "133616"), RequestException.
    repeat split; vm_compute; reflexivity.
  - exists (fields_of arsenal), (JStr "133604"), RequestException.
    repeat split; vm_compute; reflexivity.
Defined.

(** Witness of X4. *)
Lemma missing_team_id_aborts_witness :
  main league_week (JList ([arsenal] ++ nameless :: [chelsea])) initial
  = (Raise (KeyError "team_id"),
     (for_each [arsenal] (team_iter league_week) initial).2).
Proof.
  apply (missing_team_id_aborts league_week [arsenal] (fields_of nameless)
           [chelsea]).
  - vm_compute. reflexivity.
  - reflexivity.
Defined.

(** Witness of X6. *)
Lemma team_turn_idempotent_witness :
  team_iter league_week arsenal (team_iter league_week arsenal initial).2
  = (Ok tt, (team_iter league_week arsenal initial).2).
Proof.
  apply (team_turn_idempotent league_week arsenal initial).
  vm_compute. reflexivity.
Defined.

(** Witness of X7. *)
Lemma run_counts_witness :
  length (vevents (main league_week (JList [spurs; arsenal; chelsea]) initial).2)
  ≤ clock (main league_week (JList [spurs; arsenal; chelsea]) initial).2
  ∧ clock (main league_week (JList [spurs; arsenal; chelsea]) initial).2
    ≤ size (seen_uids
              (main league_week (JList [spurs; arsenal; chelsea]) initial).2)
  ∧ length
      (vevents (main league_week (JList [spurs; arsenal; chelsea]) initial).2)
    ≤ length (fetch_order league_week [spurs; arsenal; chelsea]).
Proof.
  eapply (run_counts league_week [spurs; arsenal; chelsea] _
            (main league_week (JList [spurs; arsenal; chelsea]) initial).2).
  vm_compute. reflexivity.
Defined.

(** Witness of X8. *)
Lemma unusable_duration_renders_nothing_witness :
  (∃ e', build_vevent league_week derby careless initial = (Raise e', initial))
  ∧ vevents (event_iter league_week careless derby initial).2
    = vevents initial.
Proof.
  exact (unusable_duration_renders_nothing league_week (fields_of careless)
           JNull TypeError eq_refl eq_refl derby initial).
Defined.

(** Witness of X10. *)
Lemma block_fields_read_back_witness :
  lines (String.concat NL
           (vevent_lines "FA_Cup-2003@github.io" "20261104T120001Z"
              "20260314T000000Z" "20260314T020000Z" "Lions vs Tigers" ""
              "FA Cup"))
  = vevent_lines "FA_Cup-2003@github.io" "20261104T120001Z"
      "20260314T000000Z" "20260314T020000Z" "Lions vs Tigers" "" "FA Cup"
  ∧ line_value "UID:"
      (String.concat NL
         (vevent_lines "FA_Cup-2003@github.io" "20261104T120001Z"
            "20260314T000000Z" "20260314T020000Z" "Lions vs Tigers" ""
            "FA Cup"))
    = Some "FA_Cup-2003@github.io"
  ∧ line_value "DTSTAMP:"
      (String.concat NL
         (vevent_lines "FA_Cup-2003@github.io" "20261104T120001Z"
            "20260314T000000Z" "20260314T020000Z" "Lions vs Tigers" ""
            "FA Cup"))
    = Some "20261104T120001Z"
  ∧ line_value "DTSTART:"
      (String.concat NL
         (vevent_lines "FA_Cup-2003@github.io" "20261104T120001Z"
            "20260314T000000Z" "20260314T020000Z" "Lions vs Tigers" ""
            "FA Cup"))
    = Some "20260314T000000Z"
  ∧ line_value "DTEND:"
      (String.concat NL
         (vevent_lines "FA_Cup-2003@github.io" "20261104T120001Z"
            "20260314T000000Z" "20260314T020000Z" "Lions vs Tigers" ""
            "FA Cup"))
    = Some "20260314T020000Z"
  ∧ line_value "SUMMARY:"
      (String.concat NL
         (vevent_lines "FA_Cup-2003@github.io" "20261104T120001Z"
            "20260314T000000Z" "20260314T020000Z" "Lions vs Tigers" ""
            "FA Cup"))
    = Some "Lions vs Tigers"
  ∧ line_value "LOCATION:"
      (String.concat NL
         (vevent_lines "FA_Cup-2003@github.io" "20261104T120001Z"
            "20260314T000000Z" "20260314T020000Z" "Lions vs Tigers" ""
            "FA Cup"))
    = Some ""
  ∧ line_value "DESCRIPTION:"
      (String.concat NL
         (vevent_lines "FA_Cup-2003@github.io" "20261104T120001Z"
            "20260314T000000Z" "20260314T020000Z" "Lions vs Tigers" ""
            "FA Cup"))
    = Some "FA Cup".
Proof.
  apply (block_fields_read_back "FA_Cup-2003@github.io" "20261104T120001Z"
           "20260314T000000Z" "20260314T020000Z" "Lions vs Tigers" ""
           "FA Cup"); reflexivity.
Defined.

(** Witness of X12. *)
Lemma uid_for_frame_witness :
  uid_for league_week (JDict (<["strVenue" := JStr "Wembley"]> (fields_of derby)))
  = uid_for league_week (JDict (fields_of derby)).
Proof.
  apply (uid_for_frame league_week (fields_of derby) "strVenue"
           (JStr "Wembley")); discriminate.
Defined.

(** Witness of X13. *)
Lemma uid_shape_witness :
  ∃ league eid,
    "English_Premier_League-2001@github.io"
    = league +:+ "-" +:+ py_str league_week eid +:+ "@"
      +:+ UID_DOMAIN league_week
    ∧ has_char " " league = false.
Proof.
  apply (uid_shape league_week derby).
  vm_compute. reflexivity.
Defined.

(** Witness of X14. *)
Lemma make_dt_aware_keeps_wall_witness :
  ∃ raw parsed,
    parse league_week raw = Ok parsed
    ∧ wall (Datetime (Naive 2026 3 12 2 0 0 0) (Some (λ _, 0%Z))) = wall parsed
    ∧ is_Some (tzinfo (Datetime (Naive 2026 3 12 2 0 0 0) (Some (λ _, 0%Z))))
    ∧ (is_Some (tzinfo parsed) →
       Datetime (Naive 2026 3 12 2 0 0 0) (Some (λ _, 0%Z)) = parsed).
Proof.
  apply (make_dt_aware_keeps_wall league_week derby).
  vm_compute. reflexivity.
Defined.

(** Witness of X15: with an unknown fallback zone, the away game, whose
    time carries an offset, still normalizes. *)
Lemma make_dt_fallback_zone_witness :
  (is_Some (tzinfo half_past_seven_cet) →
   make_dt lost_zone (JDict (fields_of away_game)) = Ok half_past_seven_cet)
  ∧ (∀ e, tzinfo half_past_seven_cet = None →
          pytz_timezone lost_zone (DEFAULT_TZ lost_zone) = Raise e →
          make_dt lost_zone (JDict (fields_of away_game)) = Raise e).
Proof.
  apply (make_dt_fallback_zone lost_zone (fields_of away_game)
           half_past_seven_cet).
  apply parsed_date_time; reflexivity.
Defined.

Example lost_zone_skips_naive :
  make_dt lost_zone derby = Raise (UnknownTimeZoneError "Mars/Olympus").
Proof. vm_compute. reflexivity. Qed.

(** Witness of X16. *)
Lemma to_utc_rfc_same_instant_witness :
  to_utc_rfc league_week half_past_six_utc = Ok "20260312T183000Z"
  ↔ instant half_past_seven_cet = instant half_past_six_utc.
Proof.
  apply (to_utc_rfc_same_instant league_week half_past_seven_cet
           half_past_six_utc "20260312T183000Z").
  - by eexists.
  - by eexists.
  - reflexivity.
  - split; [apply Z.leb_le|apply Z.ltb_lt]; vm_compute; reflexivity.
  - vm_compute. reflexivity.
Defined.

(** Witness of X17: midnight of 1 January of year 1 at +01:00 lies before
    the first instant [datetime] can hold in UTC. *)
Lemma to_utc_rfc_range_witness :
  (is_ok (to_utc_rfc league_week first_midnight_cet) = true
   ↔ utc_convertible first_midnight_cet)
  ∧ (valid_offset (utc_offset first_midnight_cet) = false →
     to_utc_rfc league_week first_midnight_cet = Raise offset_out_of_range)
  ∧ (valid_offset (utc_offset first_midnight_cet) = true →
     ¬ representable (instant first_midnight_cet) →
     to_utc_rfc league_week first_midnight_cet = Raise OverflowError).
Proof.
  apply (to_utc_rfc_range league_week first_midnight_cet). by eexists.
Defined.

Example first_midnight_overflows :
  to_utc_rfc league_week first_midnight_cet = Raise OverflowError.
Proof. vm_compute. reflexivity. Qed.

Example offset_of_25_hours_refused :
  to_utc_rfc league_week
    (Datetime (Naive 2026 3 12 19 30 0 0) (Some (λ _, 90000%Z)))
  = Raise offset_out_of_range.
Proof. vm_compute. reflexivity. Qed.

(** Witness of X18. *)
Lemma anonymous_events_collide_witness :
  uid_for friendlies (JDict (fields_of friendly_home))
  = uid_for friendlies (JDict (fields_of friendly_away))
  ∧ ∀ team1 team2 st,
      event_step friendlies team2
        (event_step friendlies team1 st (JDict (fields_of friendly_home)))
        (JDict (fields_of friendly_away))
      = event_step friendlies team1 st (JDict (fields_of friendly_home)).
Proof.
  apply (anonymous_events_collide friendlies (fields_of friendly_home)
           (fields_of friendly_away) "league");
    solve [ apply league_default; reflexivity | reflexivity ].
Defined.
